(** * SmartIR climate entity: a shallow embedding of
      [custom_components/smartir/climate.py]

    The development follows the Python module top to bottom:

    - [Py]       the fragments of Python's built-ins the module relies on
                 ([str.lower], truthiness, [round], ['{0:g}'.format], JSON
                 values with [dict.get] and subscription);
    - [Ha]       the Home Assistant constants the module imports;
    - [Eff]      a small state / exception / trace monad in which the
                 coroutines of [SmartIRClimate] are written;
    - [Climate]  the class itself: [__init__], the service handlers,
                 [send_command] and the sensor callbacks;
    - [Setup]    [async_added_to_hass]: restoring the last state and
                 subscribing to the sensors;
    - the theorems about them.

    Conventions.  Numbers (temperatures, the delay) are exact rationals: a
    Python float is modelled by the rational it denotes, so NaN and the
    infinities are outside the model, and a result of [round] stands for
    the double nearest to it.  Strings are byte strings; [str.lower] is
    modelled on ASCII letters, which is all the comparisons with ["off"]
    can observe.  The model runs one handler at a time, from its call to
    its return or exception: interleavings of handlers at their [await]
    points are outside the model, and with them the [asyncio.Lock] that
    [send_command] holds. *)

From Stdlib Require Import QArith Qround Qabs Lqa ZArith Lia Ascii String.
From stdpp Require Import base strings gmap list pretty.

Set Warnings "-register-all".
Local Open Scope string_scope.

(* ===================================================================== *)
(** ** Python built-ins *)
(* ===================================================================== *)

Module Py.

(** *** [str.lower] *)

Definition lower_ascii (c : Ascii.ascii) : Ascii.ascii :=
  let n := Ascii.nat_of_ascii c in
  if (65 <=? n)%nat && (n <=? 90)%nat then Ascii.ascii_of_nat (n + 32) else c.

Fixpoint lower (s : string) : string :=
  match s with
  | EmptyString => EmptyString
  | String c s' => String (lower_ascii c) (lower s')
  end.

(** *** JSON documents as Python objects

    [json.load] yields [None], [str] and [dict] objects for the shapes that
    occur in a device file's command table (codes are strings, tables are
    objects keyed by strings).  [VNone] is also what a coroutine that falls
    off its end, or executes a bare [return], hands back. *)

Inductive value : Type :=
  | VNone
  | VStr (s : string)
  | VDict (d : gmap string value).

(** Python exceptions that the modelled code can raise. *)
Inductive exn : Type :=
  | KeyError
  | TypeError
  | AttributeError
  | IndexError
  | ValueError
  | TransportError.

Definition exn_eqb (a b : exn) : bool :=
  match a, b with
  | KeyError, KeyError | TypeError, TypeError
  | AttributeError, AttributeError | IndexError, IndexError
  | ValueError, ValueError | TransportError, TransportError => true
  | _, _ => false
  end.

(** Truthiness: [bool(x)]. *)
Definition truthy (v : value) : bool :=
  match v with
  | VNone => false
  | VStr s => negb (String.eqb s "")
  | VDict d => negb (bool_decide (d = ∅))
  end.

(** Truthiness of an optional string ([None] or a [str]). *)
Definition truthy_str (o : option string) : bool :=
  match o with
  | Some s => negb (String.eqb s "")
  | None => false
  end.

(** [a or b] on optional strings. *)
Definition or_str (a b : option string) : option string :=
  if truthy_str a then a else b.

(** [bool(l)] for an optional list. *)
Definition truthy_list {A} (o : option (list A)) : bool :=
  match o with
  | Some (_ :: _) => true
  | _ => false
  end.

(** [x in l] for a list of strings. *)
Definition in_list (x : string) (l : list string) : bool :=
  existsb (String.eqb x) l.

(** [o.get(k)]: only dictionaries have the method. *)
Definition dict_get (o : value) (k : string) : exn + value :=
  match o with
  | VDict d => inr (default VNone (d !! k))
  | _ => inl AttributeError
  end.

(** [o[k]] where [k] is a string or [None]. *)
Definition subscript (o : value) (k : option string) : exn + value :=
  match o with
  | VDict d =>
      match k with
      | Some k' => match d !! k' with Some v => inr v | None => inl KeyError end
      | None => inl KeyError
      end
  | _ => inl TypeError
  end.

(** [isinstance(o, dict)] *)
Definition is_dict (o : value) : bool :=
  match o with VDict _ => true | _ => false end.

(** *** [round]

    Both forms round the exact value of their argument, ties going to the
    even neighbour. *)

Definition round_half_even (q : Q) : Z :=
  let f := Qfloor q in
  match (q - inject_Z f ?= 1 # 2)%Q with
  | Lt => f
  | Gt => (f + 1)%Z
  | Eq => if Z.even f then f else (f + 1)%Z
  end.

(** [round(x)] *)
Definition round (x : Q) : Q := inject_Z (round_half_even x).

(** [round(x, 1)] *)
Definition round1 (x : Q) : Q := Qred (round_half_even (x * 10) # 10).

(** *** ['{0:g}'.format(x)]

    The general format with its default precision of six significant
    digits: fixed notation when the decimal exponent [X] satisfies
    [-4 <= X < 6], scientific notation otherwise, trailing zeros and a
    dangling point removed. *)

Definition dec (n : Z) : string := pretty (Z.to_N n).

Definition scale10 (q : Q) (e : Z) : Q :=
  if (0 <=? e)%Z then (q * inject_Z (10 ^ e))%Q
  else (q / inject_Z (10 ^ (- e)))%Q.

(** [floor (log10 a)] for a positive [a]. *)
Definition exponent10 (a : Q) : Z :=
  let e0 := (Z.of_nat (String.length (dec (Qnum a)))
             - Z.of_nat (String.length (dec (Zpos (Qden a)))))%Z in
  if Qle_bool (scale10 1 e0) a then e0 else (e0 - 1)%Z.

Fixpoint strip_zeros_rev (s : list Ascii.ascii) : list Ascii.ascii :=
  match s with
  | c :: s' => if Ascii.eqb c "0"%char then strip_zeros_rev s' else s
  | [] => []
  end.

(** Drop the zeros at the end of a digit string. *)
Definition strip_zeros (s : string) : string :=
  string_of_list_ascii (rev (strip_zeros_rev (rev (list_ascii_of_string s)))).

Definition with_point (int frac : string) : string :=
  if String.eqb frac "" then int else int ++ "." ++ frac.

Definition zeros (n : nat) : string :=
  string_of_list_ascii (repeat "0"%char n).

Definition format_exp (e : Z) : string :=
  let a := dec (Z.abs e) in
  (if (e <? 0)%Z then "-" else "+")
    ++ (if (String.length a <? 2)%nat then "0" ++ a else a).

Definition format_g_pos (a : Q) : string :=
  let e0 := exponent10 a in
  let m0 := round_half_even (scale10 a (5 - e0)) in
  let '(m, e) := if (m0 =? 1000000)%Z then (100000%Z, (e0 + 1)%Z) else (m0, e0) in
  let ds := dec m in
  if ((-4 <=? e) && (e <? 6))%Z then
    if (0 <=? e)%Z then
      let k := Z.to_nat (e + 1) in
      with_point (substring 0 k ds) (strip_zeros (substring k (6 - k) ds))
    else
      "0." ++ zeros (Z.to_nat (- e - 1)) ++ strip_zeros ds
  else
    with_point (substring 0 1 ds) (strip_zeros (substring 1 5 ds))
      ++ "e" ++ format_exp e.

Definition format_g (x : Q) : string :=
  match (x ?= 0)%Q with
  | Eq => "0"
  | Gt => format_g_pos x
  | Lt => "-" ++ format_g_pos (- x)
  end.

End Py.

(* ===================================================================== *)
(** ** Home Assistant constants *)
(* ===================================================================== *)

(** The values of the names imported from [homeassistant.const] and
    [homeassistant.components.climate.const]. *)
Module Ha.

Definition HVAC_MODE_OFF : string := "off".
Definition HVAC_MODE_HEAT : string := "heat".
Definition HVAC_MODE_COOL : string := "cool".
Definition HVAC_MODE_HEAT_COOL : string := "heat_cool".
Definition HVAC_MODE_AUTO : string := "auto".
Definition HVAC_MODE_DRY : string := "dry".
Definition HVAC_MODE_FAN_ONLY : string := "fan_only".

Definition HVAC_MODES : list string :=
  [HVAC_MODE_OFF; HVAC_MODE_HEAT; HVAC_MODE_COOL; HVAC_MODE_HEAT_COOL;
   HVAC_MODE_AUTO; HVAC_MODE_DRY; HVAC_MODE_FAN_ONLY].

Definition STATE_ON : string := "on".
Definition STATE_OFF : string := "off".
Definition STATE_UNKNOWN : string := "unknown".

Definition PRECISION_WHOLE : Q := 1.
Definition PRECISION_HALVES : Q := 0.5.
Definition PRECISION_TENTHS : Q := 0.1.

End Ha.

(* ===================================================================== *)
(** ** Effects: entity fields, exceptions and the trace of outside calls *)
(* ===================================================================== *)

Module Eff.
Import Py.

(** What the entity does to the outside world, in order. *)
Inductive event : Type :=
  | Send (code : value)          (* [self._controller.send(code)] *)
  | Sleep (seconds : Q)          (* [asyncio.sleep(seconds)] *)
  | LogWarning (msg : string)    (* [_LOGGER.warning(msg)] *)
  | LogException (msg : string)  (* [_LOGGER.exception(msg)] *)
  | UpdateHaState.               (* [self.async_update_ha_state()] *)

Definition is_send (e : event) : bool :=
  match e with Send _ => true | _ => false end.

(** The transport calls of a trace. *)
Definition sends (t : list event) : list event := filter is_send t.



(** A value of Python's [float] type, as produced by [float(s)]. *)
Inductive float_value : Type :=
  | Finite (q : Q)
  | Infinity (negative : bool)
  | NaN.

(** The host side of the entity.

    Modelled from the spec: the transport capability
    [transmit(code) -> success | failure] behind [self._controller.send],
    which lives in the component's controller module.  Whether a call
    succeeds may depend on everything that happened before it; a failure
    is an exception raised out of [send].  [py_float] is Python's
    [float(s)] on a sensor reading, [None] standing for [ValueError]. *)
Class Host : Type := {
  delivers : list event -> value -> bool;
  py_float : string -> option float_value;
}.

(** The mutable attributes of a [SmartIRClimate] instance. *)
Record State : Type := {
  _hvac_mode : string;
  _current_fan_mode : string;
  _current_swing_mode : option string;
  _target_temperature : Q;
  _last_on_operation : option string;
  _current_temperature : option float_value;
  _current_humidity : option float_value;
}.

Definition set_hvac_mode (x : string) (s : State) : State :=
  {| _hvac_mode := x; _current_fan_mode := _current_fan_mode s;
     _current_swing_mode := _current_swing_mode s;
     _target_temperature := _target_temperature s;
     _last_on_operation := _last_on_operation s;
     _current_temperature := _current_temperature s;
     _current_humidity := _current_humidity s |}.

Definition set_current_fan_mode (x : string) (s : State) : State :=
  {| _hvac_mode := _hvac_mode s; _current_fan_mode := x;
     _current_swing_mode := _current_swing_mode s;
     _target_temperature := _target_temperature s;
     _last_on_operation := _last_on_operation s;
     _current_temperature := _current_temperature s;
     _current_humidity := _current_humidity s |}.

Definition set_current_swing_mode (x : option string) (s : State) : State :=
  {| _hvac_mode := _hvac_mode s; _current_fan_mode := _current_fan_mode s;
     _current_swing_mode := x;
     _target_temperature := _target_temperature s;
     _last_on_operation := _last_on_operation s;
     _current_temperature := _current_temperature s;
     _current_humidity := _current_humidity s |}.

Definition set_target_temperature (x : Q) (s : State) : State :=
  {| _hvac_mode := _hvac_mode s; _current_fan_mode := _current_fan_mode s;
     _current_swing_mode := _current_swing_mode s;
     _target_temperature := x;
     _last_on_operation := _last_on_operation s;
     _current_temperature := _current_temperature s;
     _current_humidity := _current_humidity s |}.

Definition set_last_on_operation (x : option string) (s : State) : State :=
  {| _hvac_mode := _hvac_mode s; _current_fan_mode := _current_fan_mode s;
     _current_swing_mode := _current_swing_mode s;
     _target_temperature := _target_temperature s;
     _last_on_operation := x;
     _current_temperature := _current_temperature s;
     _current_humidity := _current_humidity s |}.

Definition set_current_temperature (x : option float_value) (s : State) : State :=
  {| _hvac_mode := _hvac_mode s; _current_fan_mode := _current_fan_mode s;
     _current_swing_mode := _current_swing_mode s;
     _target_temperature := _target_temperature s;
     _last_on_operation := _last_on_operation s;
     _current_temperature := x;
     _current_humidity := _current_humidity s |}.

Definition set_current_humidity (x : option float_value) (s : State) : State :=
  {| _hvac_mode := _hvac_mode s; _current_fan_mode := _current_fan_mode s;
     _current_swing_mode := _current_swing_mode s;
     _target_temperature := _target_temperature s;
     _last_on_operation := _last_on_operation s;
     _current_temperature := _current_temperature s;
     _current_humidity := x |}.

(** The entity together with the trace of what it has done so far (oldest
    event first). *)
Record World : Type := {
  fields : State;
  trace : list event;
}.

(** A coroutine: it may mutate the fields, extend the trace, and either
    return or raise.  Mutations made before a [raise] persist. *)
Definition M (A : Type) : Type := World -> World * (exn + A).

#[global] Instance M_ret : MRet M := fun A a w => (w, inr a).

#[global] Instance M_bind : MBind M := fun A B f m w =>
  match m w with
  | (w', inr a) => f a w'
  | (w', inl e) => (w', inl e)
  end.

Definition raise {A} (e : exn) : M A := fun w => (w, inl e).

(** Run a pure Python operation that may raise. *)
Definition lift {A} (r : exn + A) : M A := fun w => (w, r).

Definition self : M State := fun w => (w, inr (fields w)).

Definition assign (f : State -> State) : M unit := fun w =>
  ({| fields := f (fields w); trace := trace w |}, inr tt).

Definition emit (e : event) : M unit := fun w =>
  ({| fields := fields w; trace := trace w ++ [e] |}, inr tt).

(** [if c: body] as a statement. *)
Definition when (c : bool) (body : M unit) : M unit :=
  if c then body else mret tt.

(** [await self._controller.send(code)] *)
Definition controller_send `{Host} (code : value) : M unit := fun w =>
  let w' := {| fields := fields w; trace := trace w ++ [Send code] |} in
  if delivers (trace w) code then (w', inr tt) else (w', inl TransportError).

(** [await asyncio.sleep(seconds)] *)
Definition sleep (seconds : Q) : M unit := emit (Sleep seconds).

(** [await self.async_update_ha_state()] *)
Definition async_update_ha_state : M unit := emit UpdateHaState.

(** The fields, the events and the outcome of running [m] from [w]. *)
Definition fields_after {A} (m : M A) (w : World) : State := fields (fst (m w)).
Definition trace_after {A} (m : M A) (w : World) : list event := trace (fst (m w)).
Definition outcome {A} (m : M A) (w : World) : exn + A := snd (m w).

(** The events [m] adds when started from [w]. *)
Definition emitted {A} (m : M A) (w : World) : list event :=
  drop (length (trace w)) (trace_after m w).

End Eff.

(* ===================================================================== *)
(** ** [class SmartIRClimate] *)
(* ===================================================================== *)

Module Climate.
Import Py Ha Eff.

(** *** The decorators *)

Definition DEFAULT_ERROR_MSG : string := "Exception happen during execution".

(** [error_msg or 'Exception happen during execution'] *)
Definition exception_msg (error_msg : option string) : string :=
  default DEFAULT_ERROR_MSG (or_str error_msg None).

(** [handle_exception_deco(exception, error_msg)(func)]: an exception of
    the class [exception] is logged and the call returns [None]; any other
    one propagates. *)
Definition handle_exception_deco (exception : exn -> bool)
    (error_msg : option string) (func : M value) : M value := fun w =>
  match func w with
  | (w', inl e) =>
      if exception e
      then ({| fields := fields w';
               trace := trace w' ++ [LogException (exception_msg error_msg)] |},
            inr VNone)
      else (w', inl e)
  | (w', inr v) => (w', inr v)
  end.

(** [async_handle_exception_deco] is the same wrapper around a coroutine. *)
Definition async_handle_exception_deco (exception : exn -> bool)
    (error_msg : option string) (func : M value) : M value :=
  handle_exception_deco exception error_msg func.

(** The class [Exception], the decorators' default. *)
Definition Exception (e : exn) : bool := true.

(** *** Construction *)

(** The entries of the platform configuration the entity reads. *)
Record Config : Type := {
  conf_delay : Q;
  conf_power_sensor_restore_state : bool;
  conf_default_operation_mode : option string;
  conf_default_swing_mode : option string;
  conf_default_fan_mode : option string;
}.

(** [device_data['defaults']] *)
Record Defaults : Type := {
  operationMode : option string;
  fanMode : option string;
  swingMode : option string;
}.

Definition no_defaults : Defaults :=
  {| operationMode := None; fanMode := None; swingMode := None |}.

(** The device file. *)
Record DeviceData : Type := {
  minTemperature : Q;
  maxTemperature : Q;
  precision : Q;
  operationModes : list string;
  fanModes : list string;
  commands : gmap string value;
  swingModes : option (list string);
  defaults : option Defaults;
}.

(** The attributes that [__init__] sets and nothing changes afterwards. *)
Record Device : Type := {
  _delay : Q;
  _power_sensor_restore_state : bool;
  _min_temperature : Q;
  _max_temperature : Q;
  _precision : Q;
  _operation_modes : list string;
  _fan_modes : list string;
  _commands : gmap string value;
  _swing_modes : option (list string);
  _default_on_operation_mode : string;
}.

(** [l[0]] *)
Definition first (l : list string) : exn + string :=
  match l with
  | x :: _ => inr x
  | [] => inl IndexError
  end.

(** [config.get(key) or defaults.get(name)], replaced by the first entry of
    [modes] when it is missing, empty or not one of [modes]. *)
Definition pick_default (configured from_file : option string)
    (modes : list string) : exn + string :=
  match or_str configured from_file with
  | Some m => if truthy_str (Some m) && in_list m modes then inr m else first modes
  | None => first modes
  end.

Definition is_swing_supported (swing : option (list string)) : bool :=
  truthy_list swing.

(** [SmartIRClimate.__init__] *)
Definition init (config : Config) (device_data : DeviceData)
    : exn + (Device * State) :=
  let modes :=
    HVAC_MODE_OFF :: filter (fun x => in_list x HVAC_MODES = true)
                            (operationModes device_data) in
  let d := default no_defaults (defaults device_data) in
  match pick_default (conf_default_operation_mode config) (operationMode d) modes with
  | inl e => inl e
  | inr on_mode =>
  match pick_default (conf_default_fan_mode config) (fanMode d)
                     (fanModes device_data) with
  | inl e => inl e
  | inr fan =>
  match (if is_swing_supported (swingModes device_data)
         then match pick_default (conf_default_swing_mode config) (swingMode d)
                                 (default [] (swingModes device_data)) with
              | inl e => inl e
              | inr s => inr (Some s)
              end
         else inr None) with
  | inl e => inl e
  | inr swing =>
      inr ({| _delay := conf_delay config;
              _power_sensor_restore_state := conf_power_sensor_restore_state config;
              _min_temperature := minTemperature device_data;
              _max_temperature := maxTemperature device_data;
              _precision := precision device_data;
              _operation_modes := modes;
              _fan_modes := fanModes device_data;
              _commands := commands device_data;
              _swing_modes := swingModes device_data;
              _default_on_operation_mode := on_mode |},
           {| _hvac_mode := HVAC_MODE_OFF;
              _current_fan_mode := fan;
              _current_swing_mode := swing;
              _target_temperature := minTemperature device_data;
              _last_on_operation := None;
              _current_temperature := None;
              _current_humidity := None |})
  end end end.

(** *** The coroutines *)

Section Entity.
Context `{host : Host}.
Variable dev : Device.

Definition Qlt_bool (a b : Q) : bool := negb (Qle_bool b a).

(** [new_op_mode or self._hvac_mode] *)
Definition or_current (new_op_mode : option string) (current : string) : string :=
  default current (or_str new_op_mode None).

(** The command lookup at the end of [send_command]: from the entry of the
    operation mode down to the code that is transmitted. *)
Definition resolve (operation_mode : string) (s : State) : exn + value :=
  let target_temperature := format_g (_target_temperature s) in
  match subscript (VDict (_commands dev)) (Some operation_mode) with
  | inl e => inl e
  | inr op_mode_data =>
  match dict_get op_mode_data (_current_fan_mode s) with
  | inl e => inl e
  | inr by_fan =>
  match (if truthy by_fan then inr by_fan else dict_get op_mode_data "default") with
  | inl e => inl e
  | inr fan_mode_data =>
      if is_swing_supported (_swing_modes dev) then
        match subscript fan_mode_data (_current_swing_mode s) with
        | inl e => inl e
        | inr swing_mode_data =>
            if is_dict swing_mode_data
            then subscript swing_mode_data (Some target_temperature)
            else inr swing_mode_data
        end
      else subscript fan_mode_data (Some target_temperature)
  end end end.

(** The body of [send_command], under the lock. *)
Definition send_command_body (new_op_mode : option string) : M value :=
  s ← self;
  let operation_mode := or_current new_op_mode (_hvac_mode s) in
  if String.eqb (lower operation_mode) HVAC_MODE_OFF then
    when (negb (String.eqb (_hvac_mode s) HVAC_MODE_OFF))
      (code ← lift (subscript (VDict (_commands dev)) (Some "off"));
       controller_send code);;
    mret VNone
  else
    when (bool_decide (is_Some (_commands dev !! "on")))
      (code ← lift (subscript (VDict (_commands dev)) (Some "on"));
       controller_send code;;
       sleep (_delay dev));;
    cmd ← lift (resolve operation_mode s);
    controller_send cmd;;
    mret VNone.

(** [send_command] as callers see it, decorated with
    [@async_handle_exception_deco(error_msg="Send command failed")]. *)
Definition send_command (new_op_mode : option string) : M value :=
  async_handle_exception_deco Exception (Some "Send command failed")
    (send_command_body new_op_mode).

Definition async_set_hvac_mode (hvac_mode : string) : M value :=
  send_command (Some hvac_mode);;
  assign (set_hvac_mode hvac_mode);;
  assign (set_last_on_operation (Some hvac_mode));;
  s ← self;
  when (String.eqb (lower (_hvac_mode s)) HVAC_MODE_OFF)
    (assign (set_last_on_operation None));;
  async_update_ha_state;;
  mret VNone.

(** [async_set_temperature], with the two keyword arguments it reads. *)
Definition async_set_temperature (hvac_mode : option string)
    (temperature : option Q) : M value :=
  match temperature with
  | None => mret VNone
  | Some temperature =>
      if Qlt_bool temperature (_min_temperature dev)
         || Qlt_bool (_max_temperature dev) temperature
      then
        emit (LogWarning "The temperature value is out of min/max range");;
        mret VNone
      else
        assign (set_target_temperature
                  (if Qeq_bool (_precision dev) PRECISION_WHOLE
                   then round temperature
                   else round1 temperature));;
        if truthy_str hvac_mode then
          async_set_hvac_mode (default "" hvac_mode);;
          mret VNone
        else
          s ← self;
          when (negb (String.eqb (lower (_hvac_mode s)) HVAC_MODE_OFF))
            (send_command None;; mret tt);;
          async_update_ha_state;;
          mret VNone
  end.

Definition async_set_fan_mode (fan_mode : string) : M value :=
  assign (set_current_fan_mode fan_mode);;
  s ← self;
  when (negb (negb (String.eqb (lower (_hvac_mode s)) HVAC_MODE_OFF)))
    (send_command None;; mret tt);;
  async_update_ha_state;;
  mret VNone.

Definition async_set_swing_mode (swing_mode : string) : M value :=
  assign (set_current_swing_mode (Some swing_mode));;
  s ← self;
  when (negb (negb (String.eqb (lower (_hvac_mode s)) HVAC_MODE_OFF)))
    (send_command None;; mret tt);;
  async_update_ha_state;;
  mret VNone.

Definition async_turn_off : M value :=
  async_set_hvac_mode HVAC_MODE_OFF.

Definition async_turn_on : M value :=
  s ← self;
  let cmd := if truthy_str (_last_on_operation s)
             then default "" (_last_on_operation s)
             else _default_on_operation_mode dev in
  async_set_hvac_mode cmd.

(** *** Sensor callbacks

    A state object is represented by its [state] string; [None] is an
    absent state object. *)

Definition update_temp_body (state : string) : M value :=
  when (negb (String.eqb state STATE_UNKNOWN))
    (match py_float state with
     | Some x => assign (set_current_temperature (Some x))
     | None => raise ValueError
     end);;
  mret VNone.

Definition _async_update_temp (state : string) : M value :=
  handle_exception_deco (exn_eqb ValueError)
    (Some "Unable to update from temperature sensor") (update_temp_body state).

Definition update_humidity_body (state : string) : M value :=
  when (negb (String.eqb state STATE_UNKNOWN))
    (match py_float state with
     | Some x => assign (set_current_humidity (Some x))
     | None => raise ValueError
     end);;
  mret VNone.

Definition _async_update_humidity (state : string) : M value :=
  handle_exception_deco (exn_eqb ValueError)
    (Some "Unable to update from humidity sensor") (update_humidity_body state).

Definition _async_temp_sensor_changed (old_state new_state : option string)
    : M value :=
  match new_state with
  | None => mret VNone
  | Some new => _async_update_temp new;; async_update_ha_state;; mret VNone
  end.

Definition _async_humidity_sensor_changed (old_state new_state : option string)
    : M value :=
  match new_state with
  | None => mret VNone
  | Some new => _async_update_humidity new;; async_update_ha_state;; mret VNone
  end.

(** [o.state] on a state object that may be [None]. *)
Definition state_of (o : option string) : exn + string :=
  match o with
  | Some s => inr s
  | None => inl AttributeError
  end.

Definition _async_power_sensor_changed (old_state new_state : option string)
    : M value :=
  match new_state with
  | None => mret VNone
  | Some new =>
      old ← lift (state_of old_state);
      if String.eqb new old then mret VNone
      else
        s ← self;
        (if String.eqb new STATE_ON && String.eqb (_hvac_mode s) HVAC_MODE_OFF then
           assign (set_hvac_mode STATE_ON);;
           when (_power_sensor_restore_state dev && truthy_str (_last_on_operation s))
             (assign (set_hvac_mode (default "" (_last_on_operation s))))
         else
           when (String.eqb new STATE_OFF)
             (assign (set_hvac_mode HVAC_MODE_OFF)));;
        async_update_ha_state;;
        mret VNone
  end.

(** *** Sessions: the calls the host can make on the entity *)

Inductive op : Type :=
  | SetHvacMode (mode : string)
  | SetTemperature (mode : option string) (temperature : option Q)
  | SetFanMode (fan_mode : string)
  | SetSwingMode (swing_mode : string)
  | TurnOn
  | TurnOff
  | PowerEvent (old_state new_state : option string)
  | TempEvent (old_state new_state : option string)
  | HumidityEvent (old_state new_state : option string).

Definition call (o : op) : M value :=
  match o with
  | SetHvacMode m => async_set_hvac_mode m
  | SetTemperature m t => async_set_temperature m t
  | SetFanMode f => async_set_fan_mode f
  | SetSwingMode s => async_set_swing_mode s
  | TurnOn => async_turn_on
  | TurnOff => async_turn_off
  | PowerEvent o n => _async_power_sensor_changed o n
  | TempEvent o n => _async_temp_sensor_changed o n
  | HumidityEvent o n => _async_humidity_sensor_changed o n
  end.

(** A session: the calls are made one after the other; a call that raises
    is over, and the next one finds the entity as the failed one left it. *)
Definition session (ops : list op) (w : World) : World :=
  fold_left (fun w o => fst (call o w)) ops w.

(** The mode a call may ask for. *)
Definition requested_mode (o : op) : option string :=
  match o with
  | SetHvacMode m => Some m
  | SetTemperature (Some m) _ => Some m
  | _ => None
  end.

(** What [__init__] guarantees about the mode list, and the shape of the
    mode fields that the calls maintain: the HVAC mode is one of the mode
    list or the power sensor's [STATE_ON], and a recorded last-on operation
    is one of the mode list. *)
Definition well_formed : Prop :=
  HVAC_MODE_OFF ∈ _operation_modes dev
  /\ _default_on_operation_mode dev ∈ _operation_modes dev.

Definition mode_ok (s : State) : Prop :=
  (_hvac_mode s ∈ _operation_modes dev \/ _hvac_mode s = STATE_ON)
  /\ (forall m, _last_on_operation s = Some m -> m ∈ _operation_modes dev).

End Entity.

(** The entity right after construction. *)
Definition fresh (s : State) : World := {| fields := s; trace := [] |}.

End Climate.

(* ===================================================================== *)
(** ** [async_added_to_hass]: restoring the last state and subscribing *)
(* ===================================================================== *)

Module Setup.
Import Py Ha Eff Climate.

(** The sensor entities named in the platform configuration. *)
Record Sensors : Type := {
  _temperature_sensor : option string;
  _humidity_sensor : option string;
  _power_sensor : option string;
}.

(** What [async_get_last_state] hands back: the state string and the four
    attributes that are read.  For [fan_mode] and [temperature], which are
    subscripted, [None] is a missing key; for [swing_mode] and
    [last_on_operation], which are read with [get], it is a missing key or
    a stored [None]. *)
Record LastState : Type := {
  ls_state : string;
  attr_fan_mode : option string;
  attr_temperature : option Q;
  attr_swing_mode : option string;
  attr_last_on_operation : option string;
}.

(** The callbacks that [async_track_state_change] can be given. *)
Inductive handler : Type :=
  | TempSensorChanged
  | HumiditySensorChanged
  | PowerSensorChanged.

(** [attributes[key]] *)
Definition attribute {A} (a : option A) : exn + A :=
  match a with
  | Some x => inr x
  | None => inl KeyError
  end.

Section Startup.
Context `{host : Host}.
Variable sensors : Sensors.

(** The [if last_state:] block. *)
Definition restore (last_state : option LastState) : M unit :=
  match last_state with
  | None => mret tt
  | Some last =>
      assign (set_hvac_mode (ls_state last));;
      fan ← lift (attribute (attr_fan_mode last));
      assign (set_current_fan_mode fan);;
      temperature ← lift (attribute (attr_temperature last));
      assign (set_target_temperature temperature);;
      assign (set_current_swing_mode (attr_swing_mode last));;
      assign (set_last_on_operation (attr_last_on_operation last))
  end.

(** One [if self._x_sensor:] block for a sensor whose current state is
    applied at once: the registration, then the reading that
    [hass.states.get] returns, unless it is missing or unknown. *)
Definition track_with_reading (sensor : option string) (h : handler)
    (update : string -> M value) (states : string -> option string)
    : M (list (string * handler)) :=
  if truthy_str sensor then
    let entity_id := default "" sensor in
    match states entity_id with
    | Some state =>
        when (negb (String.eqb state STATE_UNKNOWN)) (update state;; mret tt)
    | None => mret tt
    end;;
    mret [(entity_id, h)]
  else mret [].

(** [async_added_to_hass].  [last_state] is the result of
    [async_get_last_state] and [states] is [hass.states.get]; the call of
    the base class method is the host's business.  The coroutine returns
    [None]; the result here is the list of the registrations it made with
    [async_track_state_change], in order (when it raises, it has made
    none, since only the restoring block can raise). *)
Definition async_added_to_hass (last_state : option LastState)
    (states : string -> option string) : M (list (string * handler)) :=
  restore last_state;;
  t ← track_with_reading (_temperature_sensor sensors) TempSensorChanged
        _async_update_temp states;
  h ← track_with_reading (_humidity_sensor sensors) HumiditySensorChanged
        _async_update_humidity states;
  let p := if truthy_str (_power_sensor sensors)
           then [(default "" (_power_sensor sensors), PowerSensorChanged)]
           else [] in
  mret (t ++ h ++ p)%list.

End Startup.

End Setup.

(* ===================================================================== *)
(** ** A concrete installation *)
(* ===================================================================== *)

(** The profile used in the examples: modes off / cool / heat, fans low /
    high, no swing, 16 to 30 degrees in whole steps, a wake code ["A"], an
    off code ["Z"], two recorded cooling codes and one heating code that
    serves every fan speed. *)
Module Demo.
Import Py Ha Eff Climate.

Definition cool_table : value :=
  VDict {[ "low" := VDict {[ "20" := VStr "C1"; "22" := VStr "C2" ]} ]}.

Definition heat_table : value :=
  VDict {[ "default" := VDict {[ "22" := VStr "H2" ]} ]}.

Definition data : DeviceData :=
  {| minTemperature := 16;
     maxTemperature := 30;
     precision := 1;
     operationModes := ["cool"; "heat"];
     fanModes := ["low"; "high"];
     commands := {[ "on" := VStr "A"; "off" := VStr "Z";
                       "cool" := cool_table; "heat" := heat_table ]};
     swingModes := None;
     defaults := None |}.


Definition config : Config :=
  {| conf_delay := 0.5;
     conf_power_sensor_restore_state := false;
     conf_default_operation_mode := Some "heat";
     conf_default_swing_mode := None;
     conf_default_fan_mode := None |}.

(** A host whose transmitter always delivers and whose sensors report
    plain numerals. *)
Definition reliable : Host :=
  {| delivers := fun _ _ => true;
     py_float := fun s =>
       if String.eqb s "21" then Some (Finite 21)
       else if String.eqb s "nan" then Some NaN
       else None |}.

(** A host whose transmitter never delivers. *)
Definition unplugged : Host :=
  {| delivers := fun _ _ => false;
     py_float := fun _ => None |}.

(** What [__init__] makes of [data] under [config] (see [init_demo]). *)
Definition dev : Device :=
  {| _delay := 0.5;
     _power_sensor_restore_state := false;
     _min_temperature := 16;
     _max_temperature := 30;
     _precision := 1;
     _operation_modes := ["off"; "cool"; "heat"];
     _fan_modes := ["low"; "high"];
     _commands := commands data;
     _swing_modes := None;
     _default_on_operation_mode := "heat" |}.


(** The entity as constructed: off, fan low, 16 degrees. *)
Definition start : World :=
  {| fields := {| _hvac_mode := "off"; _current_fan_mode := "low";
                  _current_swing_mode := None; _target_temperature := 16;
                  _last_on_operation := None;
                  _current_temperature := None; _current_humidity := None |};
     trace := [] |}.

(** Cooling at 22 degrees, fan low. *)
Definition cooling : World :=
  {| fields := {| _hvac_mode := "cool"; _current_fan_mode := "low";
                  _current_swing_mode := None; _target_temperature := 22;
                  _last_on_operation := Some "cool";
                  _current_temperature := None; _current_humidity := None |};
     trace := [] |}.

(** The demo unit with a thermometer and a power detector. *)
Definition sensors : Setup.Sensors :=
  {| Setup._temperature_sensor := Some "sensor.room";
     Setup._humidity_sensor := None;
     Setup._power_sensor := Some "binary_sensor.ac_power" |}.

(** What the host knows about the sensors when the entity is added. *)
Definition states (entity_id : string) : option string :=
  if String.eqb entity_id "sensor.room" then Some "21"
  else if String.eqb entity_id "binary_sensor.ac_power" then Some "on"
  else None.

(** A state saved while the unit was cooling at 22 degrees. *)
Definition saved : Setup.LastState :=
  {| Setup.ls_state := "cool";
     Setup.attr_fan_mode := Some "low";
     Setup.attr_temperature := Some 22%Q;
     Setup.attr_swing_mode := None;
     Setup.attr_last_on_operation := Some "cool" |}.

(** The same without the fan mode. *)
Definition saved_without_fan : Setup.LastState :=
  {| Setup.ls_state := "cool";
     Setup.attr_fan_mode := None;
     Setup.attr_temperature := Some 22%Q;
     Setup.attr_swing_mode := None;
     Setup.attr_last_on_operation := Some "cool" |}.

(** A swing-capable profile whose heating codes do not depend on the
    temperature when the louvre is stopped. *)
Definition swing_dev : Device :=
  {| _delay := 0.5;
     _power_sensor_restore_state := true;
     _min_temperature := 16;
     _max_temperature := 30;
     _precision := 1;
     _operation_modes := ["off"; "heat"];
     _fan_modes := ["low"; "high"];
     _commands :=
       {[ "off" := VStr "Z";
          "heat" := VDict {[ "high" := VDict {[ "stop" := VStr "HS";
                                                "vertical" := VDict {[ "22" := VStr "HV22" ]} ]} ]} ]};
     _swing_modes := Some ["stop"; "vertical"];
     _default_on_operation_mode := "heat" |}.

Definition heating_high : World :=
  {| fields := {| _hvac_mode := "heat"; _current_fan_mode := "high";
                  _current_swing_mode := Some "stop"; _target_temperature := 25;
                  _last_on_operation := Some "heat";
                  _current_temperature := None; _current_humidity := None |};
     trace := [] |}.

End Demo.

(* ===================================================================== *)
(** ** Properties *)
(* ===================================================================== *)

Import Py Ha Eff Climate.

Local Open Scope list_scope.

#[local] Arguments String.eqb : simpl never.
#[local] Arguments lower : simpl never.

(** Unfold the monad and the statement-level helpers. *)
Ltac unmonad :=
  unfold emitted, fields_after, trace_after, outcome, when, sleep,
    async_update_ha_state, controller_send, lift, raise, self, assign, emit,
    mbind, M_bind, mret, M_ret in *.

(** *** The built-ins on a few inputs *)

Example lower_examples :
  map lower ["OFF"; "Off"; "cool"; "Fan_Only"] = ["off"; "off"; "cool"; "fan_only"].
Proof. reflexivity. Qed.

Example round_examples :
  map round [0.5; 1.5; 2.5; 22.4; 22.6; -0.5]%Q = [0; 2; 2; 22; 23; 0]%Q.
Proof. vm_compute. reflexivity. Qed.

Example round1_examples :
  map round1 [0.25; 0.75; 22.44; 22.46; 22]%Q = [1 # 5; 4 # 5; 112 # 5; 45 # 2; 22]%Q.
Proof. vm_compute. reflexivity. Qed.

Example format_g_examples :
  map format_g [22; 22.5; 16; 0.1; 0; -3.5; 0.0001; 0.00001; 1000000; 1234567]%Q
  = ["22"; "22.5"; "16"; "0.1"; "0"; "-3.5"; "0.0001"; "1e-05"; "1e+06";
     "1.23457e+06"].
Proof. vm_compute. reflexivity. Qed.

Example truthy_examples :
  map truthy [VNone; VStr ""; VStr "A"; VDict ∅; Demo.cool_table]
  = [false; false; true; false; true].
Proof. vm_compute. reflexivity. Qed.

(** *** Construction of the demo unit *)

Example init_demo : init Demo.config Demo.data = inr (Demo.dev, fields Demo.start).
Proof. vm_compute. reflexivity. Qed.

(** With no fan mode in the device file there is nothing to fall back on. *)
Example init_without_fan_modes :
  init Demo.config
    {| minTemperature := 16; maxTemperature := 30; precision := 1;
       operationModes := ["cool"]; fanModes := []; commands := ∅;
       swingModes := None; defaults := None |}
  = inl IndexError.
Proof. vm_compute. reflexivity. Qed.

Section Facts.
Context `{host : Host}.
Variable dev : Device.

Implicit Types (w : World) (s : State) (o : option string).

(** *** The decorators swallow what they catch *)

Lemma deco_raised exception msg (f : M value) w w' e :
  f w = (w', inl e) -> exception e = true ->
  handle_exception_deco exception msg f w =
    ({| fields := fields w'; trace := trace w' ++ [LogException (exception_msg msg)] |},
     inr VNone).
Proof. intros Hf He. unfold handle_exception_deco. rewrite Hf, He. reflexivity. Qed.

Lemma deco_returned exception msg (f : M value) w w' v :
  f w = (w', inr v) -> handle_exception_deco exception msg f w = (w', inr v).
Proof. intros Hf. unfold handle_exception_deco. rewrite Hf. reflexivity. Qed.

(** *** [send_command] *)

(** The body of [send_command] never touches the fields, only extends the
    trace, and returns [None] when it returns. *)
Lemma send_command_body_frame o w :
  exists t r,
    send_command_body dev o w = ({| fields := fields w; trace := trace w ++ t |}, r)
    /\ (forall v, r = inr v -> v = VNone).
Proof.
  destruct w as [s tr]. unfold send_command_body. unmonad. cbn.
  destruct (String.eqb (lower (or_current o (_hvac_mode s))) HVAC_MODE_OFF).
  - destruct (String.eqb (_hvac_mode s) HVAC_MODE_OFF); cbn.
    + exists [], (inr VNone). rewrite app_nil_r. split; [reflexivity|]. congruence.
    + destruct (_commands dev !! "off") as [c|]; cbn.
      * destruct (delivers tr c); eexists [_], _; (split; [reflexivity|]); congruence.
      * exists [], (inl KeyError). rewrite app_nil_r. split; [reflexivity|]. congruence.
  - destruct (_commands dev !! "on") as [c|] eqn:Hon; cbn.
    + destruct (delivers tr c); cbn.
      * destruct (resolve dev _ s) as [e|cmd]; cbn.
        -- eexists [_; _], _. rewrite <- app_assoc. split; [reflexivity|]. congruence.
        -- destruct (delivers _ cmd); eexists [_; _; _], _;
             rewrite <- !app_assoc; (split; [reflexivity|]); congruence.
      * eexists [_], _. split; [reflexivity|]. congruence.
    + destruct (resolve dev _ s) as [e|cmd]; cbn.
      * exists [], (inl e). rewrite app_nil_r. split; [reflexivity|]. congruence.
      * destruct (delivers _ cmd); eexists [_], _; (split; [reflexivity|]); congruence.
Qed.

(** The decorated [send_command] always returns [None], leaves the fields
    alone, and only extends the trace. *)
Lemma send_command_frame o w :
  exists t,
    send_command dev o w = ({| fields := fields w; trace := trace w ++ t |}, inr VNone).
Proof.
  destruct (send_command_body_frame o w) as (t & r & Hb & Hv).
  unfold send_command, async_handle_exception_deco.
  destruct r as [e|v].
  - erewrite deco_raised by (exact Hb || reflexivity). cbn.
    exists (t ++ [LogException (exception_msg (Some "Send command failed"))])%list.
    rewrite app_assoc. reflexivity.
  - erewrite deco_returned by exact Hb. rewrite (Hv v eq_refl). eauto.
Qed.

(** *** [async_set_hvac_mode] commits whatever [send_command] did *)

Lemma set_hvac_mode_run mode w :
  exists t,
    async_set_hvac_mode dev mode w =
      ({| fields :=
            set_last_on_operation
              (if String.eqb (lower mode) HVAC_MODE_OFF then None else Some mode)
              (set_hvac_mode mode (fields w));
          trace := trace w ++ t ++ [UpdateHaState] |},
       inr VNone).
Proof.
  destruct (send_command_frame (Some mode) w) as [t Ht].
  exists t. unfold async_set_hvac_mode. unmonad. rewrite Ht. cbn.
  destruct (String.eqb (lower mode) HVAC_MODE_OFF); cbn;
    rewrite <- app_assoc; reflexivity.
Qed.

Lemma set_hvac_mode_fields mode w :
  _hvac_mode (fields_after (async_set_hvac_mode dev mode) w) = mode
  /\ _last_on_operation (fields_after (async_set_hvac_mode dev mode) w) =
       (if String.eqb (lower mode) HVAC_MODE_OFF then None else Some mode).
Proof.
  destruct (set_hvac_mode_run mode w) as [t Ht].
  unfold fields_after. rewrite Ht. split; reflexivity.
Qed.

(** *** Turning on and off *)

(** With nothing recorded, turning on is a mode request for the default. *)
Lemma turn_on_default_call w :
  _last_on_operation (fields w) = None ->
  async_turn_on dev w = async_set_hvac_mode dev (_default_on_operation_mode dev) w.
Proof. intros Hlast. unfold async_turn_on. unmonad. rewrite Hlast. reflexivity. Qed.

(** C9.  When no last-on operation is recorded, [async_turn_on] is the
    call [async_set_hvac_mode] on the configured default operation mode,
    and that mode is the HVAC mode afterwards. *)
Theorem turn_on_without_last_uses_default w :
  _last_on_operation (fields w) = None ->
  async_turn_on dev w = async_set_hvac_mode dev (_default_on_operation_mode dev) w
  /\ _hvac_mode (fields_after (async_turn_on dev) w) = _default_on_operation_mode dev.
Proof.
  intros Hlast. pose proof (turn_on_default_call w Hlast) as Hcall.
  split; [exact Hcall|].
  unfold fields_after. rewrite Hcall.
  apply (set_hvac_mode_fields (_default_on_operation_mode dev) w).
Qed.

(** Turning off forgets the last-on operation. *)
Lemma turn_off_clears_last w :
  _hvac_mode (fields_after (async_turn_off dev) w) = HVAC_MODE_OFF
  /\ _last_on_operation (fields_after (async_turn_off dev) w) = None.
Proof. apply (set_hvac_mode_fields HVAC_MODE_OFF w). Qed.

(** C2, as the code has it.  From every state, [async_turn_off] followed
    by [async_turn_on] ends in the configured default operation mode:
    turning off clears the last-on operation, so the mode that was active
    before is not what turning on goes back to. *)
Theorem off_then_on_selects_default w :
  _last_on_operation (fields (session dev [TurnOff] w)) = None
  /\ _hvac_mode (fields (session dev [TurnOff; TurnOn] w)) =
       _default_on_operation_mode dev.
Proof.
  pose proof (turn_off_clears_last w) as [_ Hlast].
  split; [exact Hlast|].
  cbn [session fold_left call].
  rewrite (turn_on_default_call (fst (async_turn_off dev w)) Hlast).
  apply (set_hvac_mode_fields (_default_on_operation_mode dev)).
Qed.

(** *** The power sensor *)

(** C10.  A power-sensor event that carries a new state but no old state
    raises [AttributeError] when it reads the old state, before the two
    readings are compared: no field has changed and nothing was done. *)
Theorem power_event_without_old_raises w new :
  outcome (_async_power_sensor_changed dev None (Some new)) w = inl AttributeError
  /\ fields_after (_async_power_sensor_changed dev None (Some new)) w = fields w
  /\ emitted (_async_power_sensor_changed dev None (Some new)) w = [].
Proof.
  assert (Hrun : _async_power_sensor_changed dev None (Some new) w
                 = (w, inl AttributeError)).
  { unfold _async_power_sensor_changed, state_of. unmonad. reflexivity. }
  unfold outcome, fields_after, emitted, trace_after. rewrite Hrun. cbn.
  repeat split. apply drop_all.
Qed.

(** The handler of the power sensor only ever adds a state write-back to
    the trace. *)
Lemma power_event_trace old new w :
  emitted (_async_power_sensor_changed dev old new) w = []
  \/ emitted (_async_power_sensor_changed dev old new) w = [UpdateHaState].
Proof.
  destruct w as [s tr]. unfold _async_power_sensor_changed. unmonad.
  destruct new as [n|]; cbn; [|left; apply drop_all].
  destruct old as [o|]; cbn; [|left; apply drop_all].
  destruct (String.eqb n o); cbn; [left; apply drop_all|].
  right.
  destruct (String.eqb n STATE_ON && String.eqb (_hvac_mode s) HVAC_MODE_OFF); cbn.
  - destruct (_power_sensor_restore_state dev && truthy_str (_last_on_operation s));
      cbn; apply drop_app_length.
  - destruct (String.eqb n STATE_OFF); cbn; apply drop_app_length.
Qed.

(** C8, as the code has it.  A power-sensor event whose new reading is off
    and whose old reading is present and different sets the HVAC mode to
    off, whatever it was; and no power-sensor event, whatever its
    readings, makes a transport call. *)
Theorem power_event_off_transition :
  (forall w old, old <> STATE_OFF ->
     _hvac_mode (fields_after
                  (_async_power_sensor_changed dev (Some old) (Some STATE_OFF)) w)
       = HVAC_MODE_OFF)
  /\ (forall w old new,
        sends (emitted (_async_power_sensor_changed dev old new) w) = []).
Proof.
  split.
  - intros w old Hold.
    unfold _async_power_sensor_changed. unmonad. cbn.
    destruct (String.eqb_spec STATE_OFF old) as [<-|_]; [congruence|].
    reflexivity.
  - intros w old new.
    destruct (power_event_trace old new w) as [-> | ->]; reflexivity.
Qed.

(** *** What [send_command] transmits *)

(** Replace a call of [send_command] or [async_set_hvac_mode] in the goal
    by its frame. *)
Ltac frame_call :=
  match goal with
  | |- context [send_command ?d ?o ?w] =>
      let t := fresh "t" in let Ht := fresh "Ht" in
      destruct (send_command_frame o w) as [t Ht]; rewrite Ht; clear Ht
  | |- context [async_set_hvac_mode ?d ?m ?w] =>
      let t := fresh "t" in let Ht := fresh "Ht" in
      destruct (set_hvac_mode_run m w) as [t Ht]; rewrite Ht; clear Ht
  end.

(** C5.  A send whose target mode is off makes no transport call, and
    does nothing else either, when the recorded mode is already off; when
    the recorded mode is not off, its transport calls are exactly one
    transmission of the off code of the command table. *)
Theorem send_off o w :
  lower (or_current o (_hvac_mode (fields w))) = HVAC_MODE_OFF ->
  (_hvac_mode (fields w) = HVAC_MODE_OFF ->
     emitted (send_command dev o) w = [])
  /\ (forall code,
        _hvac_mode (fields w) <> HVAC_MODE_OFF ->
        _commands dev !! "off" = Some code ->
        sends (emitted (send_command dev o) w) = [Send code]).
Proof.
  intros Htarget. apply String.eqb_eq in Htarget.
  destruct w as [s tr].
  unfold send_command, async_handle_exception_deco, handle_exception_deco,
    send_command_body.
  unmonad. cbn in *. rewrite Htarget.
  split.
  - intros ->. cbn. apply drop_all.
  - intros code Hon Hcode. apply String.eqb_neq in Hon. rewrite Hon, Hcode. cbn.
    destruct (delivers tr code); cbn; rewrite <- ?app_assoc, drop_app_length;
      reflexivity.
Qed.


(** When the on code itself is not delivered, the send stops there. *)
Lemma send_on_pulse_lost o w on :
  lower (or_current o (_hvac_mode (fields w))) <> HVAC_MODE_OFF ->
  _commands dev !! "on" = Some on ->
  delivers (trace w) on = false ->
  emitted (send_command dev o) w =
    [Send on; LogException "Send command failed"].
Proof.
  intros Htarget Hon Hko. apply String.eqb_neq in Htarget.
  destruct w as [s tr].
  unfold send_command, async_handle_exception_deco, handle_exception_deco,
    send_command_body.
  unmonad. cbn in *. rewrite Htarget, Hon. cbn. rewrite Hko. cbn.
  rewrite <- app_assoc. apply drop_app_length.
Qed.

(** *** Failures of a send *)

(** Every call of [send_command] hands [None] back to its caller. *)
Lemma send_command_returns_none o w :
  outcome (send_command dev o) w = inr VNone.
Proof.
  destruct (send_command_frame o w) as [t Ht]. unfold outcome. rewrite Ht.
  reflexivity.
Qed.

(** C7, as the code has it.  When the lookup or the transport fails in a
    send, the exception is logged as "Send command failed" and swallowed:
    the caller gets [None], which is also what it gets from a send that
    succeeded (from every send, in fact), so the failure is not reported
    to it.  The fields are as before the send, and any further send
    returns normally. *)
Theorem send_failure_is_swallowed o w e :
  outcome (send_command_body dev o) w = inl e ->
  emitted (send_command dev o) w =
    emitted (send_command_body dev o) w ++ [LogException "Send command failed"]
  /\ outcome (send_command dev o) w = inr VNone
  /\ (forall o' w', outcome (send_command dev o') w' = inr VNone)
  /\ fields_after (send_command dev o) w = fields w.
Proof.
  intros Hraise.
  destruct (send_command_body_frame o w) as (t & r & Hb & _).
  unfold outcome in Hraise. rewrite Hb in Hraise. cbn in Hraise. subst r.
  repeat split.
  - unfold emitted, trace_after, send_command, async_handle_exception_deco.
    erewrite deco_raised by (exact Hb || reflexivity). rewrite Hb. cbn.
    rewrite <- app_assoc, !drop_app_length. reflexivity.
  - apply send_command_returns_none.
  - intros o' w'. apply send_command_returns_none.
  - unfold fields_after, send_command, async_handle_exception_deco.
    erewrite deco_raised by (exact Hb || reflexivity). reflexivity.
Qed.

(** *** Fan and swing *)

(** While the recorded mode is not off, [async_set_fan_mode] and
    [async_set_swing_mode] store their argument and write the state back;
    [send_command] is not called. *)
Lemma set_fan_mode_while_on fan_mode w :
  lower (_hvac_mode (fields w)) <> HVAC_MODE_OFF ->
  async_set_fan_mode dev fan_mode w =
    ({| fields := set_current_fan_mode fan_mode (fields w);
        trace := trace w ++ [UpdateHaState] |}, inr VNone).
Proof.
  intros Hon. apply String.eqb_neq in Hon.
  unfold async_set_fan_mode. unmonad. cbn. rewrite Hon. reflexivity.
Qed.

Lemma set_swing_mode_while_on swing_mode w :
  lower (_hvac_mode (fields w)) <> HVAC_MODE_OFF ->
  async_set_swing_mode dev swing_mode w =
    ({| fields := set_current_swing_mode (Some swing_mode) (fields w);
        trace := trace w ++ [UpdateHaState] |}, inr VNone).
Proof.
  intros Hon. apply String.eqb_neq in Hon.
  unfold async_set_swing_mode. unmonad. cbn. rewrite Hon. reflexivity.
Qed.

(** While the recorded mode is ["off"], they do call [send_command], which
    then has nothing to transmit. *)
Lemma set_fan_mode_while_off fan_mode w :
  _hvac_mode (fields w) = HVAC_MODE_OFF ->
  async_set_fan_mode dev fan_mode w =
    ({| fields := set_current_fan_mode fan_mode (fields w);
        trace := trace w ++ [UpdateHaState] |}, inr VNone).
Proof.
  destruct w as [[mode ? ? ? ? ? ?] tr]. cbn. intros ->.
  unfold async_set_fan_mode, send_command, async_handle_exception_deco,
    handle_exception_deco, send_command_body.
  unmonad. cbn. reflexivity.
Qed.

Lemma set_swing_mode_while_off swing_mode w :
  _hvac_mode (fields w) = HVAC_MODE_OFF ->
  async_set_swing_mode dev swing_mode w =
    ({| fields := set_current_swing_mode (Some swing_mode) (fields w);
        trace := trace w ++ [UpdateHaState] |}, inr VNone).
Proof.
  destruct w as [[mode ? ? ? ? ? ?] tr]. cbn. intros ->.
  unfold async_set_swing_mode, send_command, async_handle_exception_deco,
    handle_exception_deco, send_command_body.
  unmonad. cbn. reflexivity.
Qed.

(** *** The target temperature *)

Lemma Qlt_bool_false a b : (b <= a)%Q -> Qlt_bool a b = false.
Proof. intros H. unfold Qlt_bool. apply Qle_bool_iff in H. rewrite H. reflexivity. Qed.

Lemma Qlt_bool_true a b : ~ (b <= a)%Q -> Qlt_bool a b = true.
Proof.
  intros H. unfold Qlt_bool. destruct (Qle_bool b a) eqn:E; [|reflexivity].
  apply Qle_bool_iff in E. contradiction.
Qed.

(** [round] picks an integer at distance at most one half. *)
Lemma round_nearest (x : Q) : (Qabs (x - round x) <= 1 # 2)%Q.
Proof.
  unfold round, round_half_even.
  pose proof (Qfloor_le x) as Hlo. pose proof (Qlt_floor x) as Hhi.
  rewrite inject_Z_plus in Hhi. change (inject_Z 1) with 1%Q in Hhi.
  apply Qabs_Qle_condition.
  destruct (x - inject_Z (Qfloor x) ?= 1 # 2)%Q eqn:Hc.
  - apply Qeq_alt in Hc.
    destruct (Z.even (Qfloor x)); [|rewrite inject_Z_plus; change (inject_Z 1) with 1%Q];
      split; lra.
  - apply Qlt_alt in Hc. split; lra.
  - apply Qgt_alt in Hc. rewrite inject_Z_plus. change (inject_Z 1) with 1%Q.
    split; lra.
Qed.

(** [round1] picks a multiple of one tenth at distance at most one
    twentieth. *)
Lemma round1_nearest (x : Q) :
  (exists z : Z, round1 x == z # 10)%Q /\ (Qabs (x - round1 x) <= 1 # 20)%Q.
Proof.
  unfold round1. split; [eexists; apply Qred_correct|].
  rewrite Qred_correct.
  pose proof (round_nearest (x * 10)) as H. unfold round in H.
  apply Qabs_Qle_condition in H. apply Qabs_Qle_condition.
  set (z := round_half_even (x * 10)) in *.
  assert (Hz : (z # 10 == inject_Z z * (1 # 10))%Q).
  { unfold Qeq, Qmult, inject_Z. cbn. lia. }
  rewrite Hz. split; lra.
Qed.

(** A request outside the range is dropped with a warning. *)
Lemma set_temperature_rejected mode t w :
  ~ (_min_temperature dev <= t <= _max_temperature dev)%Q ->
  async_set_temperature dev mode (Some t) w =
    ({| fields := fields w;
        trace := trace w
                 ++ [LogWarning "The temperature value is out of min/max range"] |},
     inr VNone).
Proof.
  intros Hout. unfold async_set_temperature.
  assert (Hc : Qlt_bool t (_min_temperature dev)
               || Qlt_bool (_max_temperature dev) t = true).
  { destruct (Qlt_bool t (_min_temperature dev)) eqn:Hlo; [reflexivity|].
    destruct (Qlt_bool (_max_temperature dev) t) eqn:Hhi; [reflexivity|].
    exfalso. apply Hout. unfold Qlt_bool in *.
    apply negb_false_iff in Hlo, Hhi. apply Qle_bool_iff in Hlo, Hhi. auto. }
  rewrite Hc. reflexivity.
Qed.

(** C4.  A temperature inside the range of the device is stored rounded:
    by [round], to the nearest integer, when the precision of the profile
    is whole degrees, and by [round(_, 1)], to the nearest tenth,
    otherwise; this is so whether or not a mode comes with the request.
    A temperature outside the range changes no field and causes no
    transport call. *)
Theorem set_temperature_range mode t w :
  ((_min_temperature dev <= t <= _max_temperature dev)%Q ->
     _target_temperature
       (fields_after (async_set_temperature dev mode (Some t)) w)
     = (if Qeq_bool (_precision dev) PRECISION_WHOLE then round t else round1 t))
  /\ ((exists z : Z, round t = inject_Z z) /\ (Qabs (t - round t) <= 1 # 2)%Q)
  /\ ((exists z : Z, round1 t == z # 10)%Q /\ (Qabs (t - round1 t) <= 1 # 20)%Q)
  /\ (~ (_min_temperature dev <= t <= _max_temperature dev)%Q ->
       fields_after (async_set_temperature dev mode (Some t)) w = fields w
       /\ sends (emitted (async_set_temperature dev mode (Some t)) w) = []).
Proof.
  split; [|split; [|split]].
  - intros [Hlo Hhi]. unfold async_set_temperature.
    rewrite (Qlt_bool_false _ _ Hlo), (Qlt_bool_false _ _ Hhi).
    destruct w as [s tr]. unmonad. cbn.
    destruct (truthy_str mode); cbn.
    + frame_call. reflexivity.
    + destruct (negb (String.eqb (lower (_hvac_mode s)) HVAC_MODE_OFF)); cbn;
        [frame_call|]; reflexivity.
  - split; [eexists; reflexivity | apply round_nearest].
  - apply round1_nearest.
  - intros Hout. unfold fields_after, emitted, trace_after.
    rewrite (set_temperature_rejected mode t w Hout). cbn.
    split; [reflexivity|]. rewrite drop_app_length. reflexivity.
Qed.

(** *** The modes a session can reach *)

Lemma in_list_elem x (l : list string) : in_list x l = true <-> x ∈ l.
Proof.
  unfold in_list. rewrite existsb_exists, list_elem_of_In. split.
  - intros (y & Hin & Heq). apply String.eqb_eq in Heq. subst y. exact Hin.
  - intros Hin. exists x. split; [exact Hin | apply String.eqb_refl].
Qed.

Lemma first_elem (l : list string) m : first l = inr m -> m ∈ l.
Proof. destruct l as [|x l]; intros [= <-]. apply list_elem_of_here. Qed.

Lemma pick_default_elem a b (modes : list string) m :
  pick_default a b modes = inr m -> m ∈ modes.
Proof.
  unfold pick_default. destruct (or_str a b) as [c|]; [|apply first_elem].
  destruct (truthy_str (Some c) && in_list c modes) eqn:Hc; [|apply first_elem].
  intros [= <-]. apply andb_true_iff in Hc as [_ Hc]. apply in_list_elem, Hc.
Qed.

(** [__init__] leaves a mode list that contains off and the default
    operation mode, and an entity that is off. *)
Lemma init_well_formed config data s0 :
  init config data = inr (dev, s0) -> well_formed dev /\ mode_ok dev s0.
Proof.
  unfold init.
  destruct (pick_default (conf_default_operation_mode config) _ _)
    as [|on_mode] eqn:Hmode; [discriminate|].
  destruct (pick_default (conf_default_fan_mode config) _ _) as [|fan];
    [discriminate|].
  match goal with |- match ?x with _ => _ end = _ -> _ =>
    destruct x as [|swing]; [discriminate|] end.
  intros [= <- <-]. apply pick_default_elem in Hmode.
  unfold well_formed, mode_ok. cbn.
  repeat split; try exact Hmode; try (left; apply list_elem_of_here);
    try apply list_elem_of_here.
  intros m [=].
Qed.

Lemma mode_ok_same s s' :
  _hvac_mode s' = _hvac_mode s -> _last_on_operation s' = _last_on_operation s ->
  mode_ok dev s -> mode_ok dev s'.
Proof. unfold mode_ok. intros -> ->. exact id. Qed.

Lemma mode_ok_commit mode s :
  mode ∈ _operation_modes dev ->
  mode_ok dev
    (set_last_on_operation
       (if String.eqb (lower mode) HVAC_MODE_OFF then None else Some mode)
       (set_hvac_mode mode s)).
Proof.
  intros Hin. split; cbn; [left; exact Hin|].
  destruct (String.eqb (lower mode) HVAC_MODE_OFF); intros m [=]. subst m. exact Hin.
Qed.

Lemma truthy_str_some o : truthy_str o = true -> exists m, o = Some m.
Proof. destruct o as [m|]; [eauto | discriminate]. Qed.

(** Every call keeps the mode fields in shape, as long as the mode it asks
    for (if any) is one of the mode list. *)
Lemma call_mode_ok (c : op) w :
  well_formed dev -> mode_ok dev (fields w) ->
  (forall m, requested_mode c = Some m -> m ∈ _operation_modes dev) ->
  mode_ok dev (fields (fst (call dev c w))).
Proof.
  intros [Hoff Hdef] Hok Hreq. destruct w as [s tr]. cbn in Hok.
  destruct c as [m | m t | f | sw | | | old new | old new | old new]; cbn [call].
  - frame_call. cbn. apply mode_ok_commit, Hreq. reflexivity.
  - unfold async_set_temperature. destruct t as [t|]; [|exact Hok].
    destruct (Qlt_bool t _ || Qlt_bool _ t); [exact Hok|].
    unmonad. cbn.
    destruct (truthy_str m) eqn:Hm; cbn.
    + apply truthy_str_some in Hm as [m' ->]. frame_call. cbn.
      apply mode_ok_commit, Hreq. reflexivity.
    + destruct (negb (String.eqb (lower (_hvac_mode s)) HVAC_MODE_OFF)); cbn;
        [frame_call; cbn|]; revert Hok; apply mode_ok_same; reflexivity.
  - unfold async_set_fan_mode. unmonad. cbn.
    destruct (negb (negb (String.eqb (lower (_hvac_mode s)) HVAC_MODE_OFF))); cbn;
      [frame_call; cbn|]; revert Hok; apply mode_ok_same; reflexivity.
  - unfold async_set_swing_mode. unmonad. cbn.
    destruct (negb (negb (String.eqb (lower (_hvac_mode s)) HVAC_MODE_OFF))); cbn;
      [frame_call; cbn|]; revert Hok; apply mode_ok_same; reflexivity.
  - unfold async_turn_on. unmonad. cbn. frame_call. cbn.
    apply mode_ok_commit.
    destruct (truthy_str (_last_on_operation s)) eqn:Hl; [|exact Hdef].
    apply truthy_str_some in Hl as [m Hl]. rewrite Hl. cbn.
    apply (proj2 Hok), Hl.
  - unfold async_turn_off. frame_call. cbn. apply mode_ok_commit, Hoff.
  - unfold _async_power_sensor_changed. unmonad.
    destruct new as [n|]; [|exact Hok]. destruct old as [p|]; [|exact Hok]. cbn.
    destruct (String.eqb n p); [exact Hok|]. cbn.
    destruct (String.eqb n STATE_ON && String.eqb (_hvac_mode s) HVAC_MODE_OFF); cbn.
    + destruct (_power_sensor_restore_state dev) ; cbn;
        [destruct (truthy_str (_last_on_operation s)) eqn:Hl; cbn|].
      * apply truthy_str_some in Hl as [m Hl]. rewrite Hl. cbn.
        split; cbn; [left; apply (proj2 Hok), Hl | exact (proj2 Hok)].
      * split; cbn; [right; reflexivity | exact (proj2 Hok)].
      * split; cbn; [right; reflexivity | exact (proj2 Hok)].
    + destruct (String.eqb n STATE_OFF); cbn.
      * split; cbn; [left; exact Hoff | exact (proj2 Hok)].
      * exact Hok.
  - unfold _async_temp_sensor_changed, _async_update_temp, handle_exception_deco,
      update_temp_body.
    destruct new as [n|]; [|exact Hok]. unmonad. cbn.
    destruct (negb (String.eqb n STATE_UNKNOWN)); cbn; [|exact Hok].
    destruct (py_float n); cbn; exact Hok.
  - unfold _async_humidity_sensor_changed, _async_update_humidity,
      handle_exception_deco, update_humidity_body.
    destruct new as [n|]; [|exact Hok]. unmonad. cbn.
    destruct (negb (String.eqb n STATE_UNKNOWN)); cbn; [|exact Hok].
    destruct (py_float n); cbn; exact Hok.
Qed.

Lemma session_mode_ok ops w :
  well_formed dev -> mode_ok dev (fields w) ->
  (forall (c : op) m, c ∈ ops -> requested_mode c = Some m -> m ∈ _operation_modes dev) ->
  mode_ok dev (fields (session dev ops w)).
Proof.
  intros Hwf. revert w. induction ops as [|c ops IH]; intros w Hok Hreq.
  - exact Hok.
  - cbn [session fold_left]. apply IH.
    + apply call_mode_ok; [exact Hwf | exact Hok |].
      intros m. apply Hreq. apply list_elem_of_here.
    + intros c' m Hin. apply Hreq. apply list_elem_of_further, Hin.
Qed.

(** C3, as the code has it.  In every state that a session reaches from
    the freshly constructed entity, with calls that ask only for modes of
    the mode list, the HVAC mode is a member of the mode list (which
    contains off) or is [STATE_ON], the marker that the power-sensor
    handler stores when it sees the appliance come on by itself. *)
Theorem session_modes config data s0 ops :
  init config data = inr (dev, s0) ->
  (forall (c : op) m, c ∈ ops -> requested_mode c = Some m -> m ∈ _operation_modes dev) ->
  _hvac_mode (fields (session dev ops (fresh s0))) ∈ _operation_modes dev
  \/ _hvac_mode (fields (session dev ops (fresh s0))) = STATE_ON.
Proof.
  intros Hinit Hreq. apply init_well_formed in Hinit as [Hwf Hok].
  exact (proj1 (session_mode_ok ops (fresh s0) Hwf Hok Hreq)).
Qed.

End Facts.

(* ===================================================================== *)
(** ** The demo installation, run *)
(* ===================================================================== *)

#[local] Existing Instance Demo.reliable.

(** C1 at a concrete state: while the demo unit is cooling, setting the fan
    mode or the swing mode stores the new value and transmits nothing,
    although [async_set_temperature], which carries the same guard without
    the stray [not], transmits the full state from the same starting
    point. *)
Theorem fan_and_swing_silent_while_cooling :
  _current_fan_mode (fields_after (async_set_fan_mode Demo.dev "high") Demo.cooling)
    = "high"
  /\ sends (emitted (async_set_fan_mode Demo.dev "high") Demo.cooling) = []
  /\ _current_swing_mode
       (fields_after (async_set_swing_mode Demo.dev "vertical") Demo.cooling)
     = Some "vertical"
  /\ sends (emitted (async_set_swing_mode Demo.dev "vertical") Demo.cooling) = []
  /\ sends (emitted (async_set_temperature Demo.dev None (Some 20%Q)) Demo.cooling)
     = [Send (VStr "A"); Send (VStr "C1")].
Proof. vm_compute. repeat split; reflexivity. Qed.

(** The unit was cooling; after turning it off and on again it heats. *)
Lemma off_then_on_loses_mode :
  _hvac_mode (fields Demo.cooling) = "cool"
  /\ lower "cool" <> HVAC_MODE_OFF
  /\ _hvac_mode (fields (session Demo.dev [TurnOff; TurnOn] Demo.cooling)) <> "cool".
Proof. vm_compute. repeat split; discriminate. Qed.

(** The freshly built unit sees the appliance come on: its mode becomes
    ["on"], which is not in its mode list. *)
Lemma power_on_leaves_mode_list :
  init Demo.config Demo.data = inr (Demo.dev, fields Demo.start)
  /\ ~ _hvac_mode
        (fields (session Demo.dev [PowerEvent (Some "off") (Some "on")]
                   (fresh (fields Demo.start))))
      ∈ _operation_modes Demo.dev.
Proof.
  split; [exact init_demo|].
  vm_compute. intros H. apply in_list_elem in H. vm_compute in H. discriminate.
Qed.

Lemma session_modes_witness :
  let ops := [SetHvacMode "cool"; SetTemperature (Some "heat") (Some 22%Q);
              PowerEvent (Some "on") (Some "off");
              PowerEvent (Some "off") (Some "on"); TurnOn;
              TempEvent None (Some "21")] in
  init Demo.config Demo.data = inr (Demo.dev, fields Demo.start)
  /\ (forall (c : op) m, c ∈ ops -> requested_mode c = Some m ->
        m ∈ _operation_modes Demo.dev)
  /\ (_hvac_mode (fields (session Demo.dev ops (fresh (fields Demo.start))))
        ∈ _operation_modes Demo.dev
      \/ _hvac_mode (fields (session Demo.dev ops (fresh (fields Demo.start))))
         = STATE_ON).
Proof.
  intros ops.
  assert (Hreq : forall (c : op) m, c ∈ ops -> requested_mode c = Some m ->
                   m ∈ _operation_modes Demo.dev).
  { intros c m Hin Hm. apply in_list_elem.
    repeat (apply elem_of_cons in Hin as [-> | Hin]);
      try (apply elem_of_nil in Hin; destruct Hin);
      cbn in Hm; try discriminate; injection Hm as <-; reflexivity. }
  split; [exact init_demo|]. split; [exact Hreq|].
  exact (session_modes Demo.dev Demo.config Demo.data (fields Demo.start) ops
           init_demo Hreq).
Defined.

Lemma turn_on_without_last_uses_default_witness :
  _last_on_operation (fields Demo.start) = None
  /\ _hvac_mode (fields_after (async_turn_on Demo.dev) Demo.start) = "heat".
Proof.
  split; [reflexivity|].
  exact (proj2 (turn_on_without_last_uses_default Demo.dev Demo.start eq_refl)).
Defined.

(** The scenario of a whole-degree unit driven to 22 degrees: the mode
    request finds no code for the initial 16 degrees, the fan request is
    silent, and the temperature request sends the wake code, waits, and
    sends the cooling code. *)
Example cool_low_22 :
  session Demo.dev
    [SetHvacMode "cool"; SetFanMode "low"; SetTemperature None (Some 22%Q)]
    Demo.start
  = {| fields := {| _hvac_mode := "cool"; _current_fan_mode := "low";
                    _current_swing_mode := None; _target_temperature := 22;
                    _last_on_operation := Some "cool";
                    _current_temperature := None; _current_humidity := None |};
       trace := [Send (VStr "A"); Sleep 0.5; LogException "Send command failed";
                 UpdateHaState;
                 UpdateHaState;
                 Send (VStr "A"); Sleep 0.5; Send (VStr "C2"); UpdateHaState] |}.
Proof. vm_compute. reflexivity. Qed.

Lemma set_temperature_range_witness :
  ((_min_temperature Demo.dev <= 22.4 <= _max_temperature Demo.dev)%Q
   /\ _target_temperature
        (fields_after (async_set_temperature Demo.dev None (Some 22.4%Q)) Demo.cooling)
      = 22%Q)
  /\ (~ (_min_temperature Demo.dev <= 31 <= _max_temperature Demo.dev)%Q
      /\ fields_after (async_set_temperature Demo.dev None (Some 31%Q)) Demo.cooling
         = fields Demo.cooling
      /\ sends (emitted (async_set_temperature Demo.dev None (Some 31%Q)) Demo.cooling)
         = []).
Proof.
  assert (Hin : (_min_temperature Demo.dev <= 22.4 <= _max_temperature Demo.dev)%Q).
  { split; vm_compute; discriminate. }
  assert (Hout : ~ (_min_temperature Demo.dev <= 31 <= _max_temperature Demo.dev)%Q).
  { intros [_ H]. vm_compute in H. apply H. reflexivity. }
  split.
  - split; [exact Hin|].
    exact (proj1 (set_temperature_range Demo.dev None 22.4%Q Demo.cooling) Hin).
  - split; [exact Hout|].
    exact (proj2 (proj2 (proj2
             (set_temperature_range Demo.dev None 31%Q Demo.cooling))) Hout).
Defined.

Lemma send_off_witness :
  (lower (or_current (Some "off") (_hvac_mode (fields Demo.start))) = HVAC_MODE_OFF
   /\ _hvac_mode (fields Demo.start) = HVAC_MODE_OFF
   /\ emitted (send_command Demo.dev (Some "off")) Demo.start = [])
  /\ (lower (or_current (Some "off") (_hvac_mode (fields Demo.cooling))) = HVAC_MODE_OFF
      /\ _hvac_mode (fields Demo.cooling) <> HVAC_MODE_OFF
      /\ _commands Demo.dev !! "off" = Some (VStr "Z")
      /\ sends (emitted (send_command Demo.dev (Some "off")) Demo.cooling)
         = [Send (VStr "Z")]).
Proof.
  assert (Hon : _hvac_mode (fields Demo.cooling) <> HVAC_MODE_OFF) by discriminate.
  assert (Hz : _commands Demo.dev !! "off" = Some (VStr "Z"))
    by (vm_compute; reflexivity).
  split.
  - split; [reflexivity|]. split; [reflexivity|].
    exact (proj1 (send_off Demo.dev (Some "off") Demo.start eq_refl) eq_refl).
  - split; [reflexivity|]. split; [exact Hon|]. split; [exact Hz|].
    exact (proj2 (send_off Demo.dev (Some "off") Demo.cooling eq_refl)
             (VStr "Z") Hon Hz).
Defined.


(** A send that finds no code for 16 degrees and a send that goes through
    hand the same result to their caller, and so does a send on a
    transmitter that is not there. *)
Lemma failed_send_looks_like_success :
  outcome (send_command_body Demo.dev (Some "cool")) Demo.start = inl KeyError
  /\ outcome (send_command_body Demo.dev (Some "cool")) Demo.cooling = inr VNone
  /\ outcome (send_command Demo.dev (Some "cool")) Demo.start
     = outcome (send_command Demo.dev (Some "cool")) Demo.cooling
  /\ outcome (send_command_body (host := Demo.unplugged) Demo.dev (Some "cool"))
       Demo.cooling = inl TransportError
  /\ outcome (send_command (host := Demo.unplugged) Demo.dev (Some "cool"))
       Demo.cooling
     = outcome (send_command Demo.dev (Some "cool")) Demo.cooling.
Proof. vm_compute. repeat split; reflexivity. Qed.

Lemma send_failure_is_swallowed_witness :
  outcome (send_command_body Demo.dev (Some "cool")) Demo.start = inl KeyError
  /\ emitted (send_command Demo.dev (Some "cool")) Demo.start
     = [Send (VStr "A"); Sleep 0.5; LogException "Send command failed"]
  /\ outcome (send_command Demo.dev (Some "cool")) Demo.start = inr VNone
  /\ fields_after (send_command Demo.dev (Some "cool")) Demo.start
     = fields Demo.start.
Proof.
  assert (Hraise : outcome (send_command_body Demo.dev (Some "cool")) Demo.start
                   = inl KeyError) by (vm_compute; reflexivity).
  pose proof (send_failure_is_swallowed Demo.dev (Some "cool") Demo.start
                KeyError Hraise) as (Hlog & Hret & _ & Hsame).
  split; [exact Hraise|]. split; [|split; [exact Hret | exact Hsame]].
  rewrite Hlog. vm_compute. reflexivity.
Defined.

(** The unit is cooling and the power sensor reports off twice in a row:
    the mode stays as it was. *)
Lemma repeated_off_reading_is_ignored :
  _hvac_mode (fields_after
               (_async_power_sensor_changed Demo.dev (Some "off") (Some STATE_OFF))
               Demo.cooling)
  <> HVAC_MODE_OFF.
Proof. vm_compute. discriminate. Qed.

Lemma power_event_off_transition_witness :
  "on" <> STATE_OFF
  /\ _hvac_mode (fields_after
                  (_async_power_sensor_changed Demo.dev (Some "on") (Some STATE_OFF))
                  Demo.cooling)
     = HVAC_MODE_OFF
  /\ sends (emitted (_async_power_sensor_changed Demo.dev (Some "on") (Some STATE_OFF))
              Demo.cooling) = [].
Proof.
  assert (Hne : "on" <> STATE_OFF) by discriminate.
  split; [exact Hne|]. split.
  - exact (proj1 (power_event_off_transition Demo.dev) Demo.cooling "on" Hne).
  - exact (proj2 (power_event_off_transition Demo.dev) Demo.cooling
             (Some "on") (Some STATE_OFF)).
Defined.

(* ===================================================================== *)
(** ** Further behaviour of the entity *)
(* ===================================================================== *)

(** *** Construction *)



(** The shape of a successful [init]. *)
Lemma init_inr config data dev s0 :
  init config data = inr (dev, s0) ->
  exists on_mode fan swing,
    pick_default (conf_default_operation_mode config)
      (operationMode (default no_defaults (defaults data)))
      (HVAC_MODE_OFF :: filter (fun x => in_list x HVAC_MODES = true)
                               (operationModes data)) = inr on_mode
    /\ pick_default (conf_default_fan_mode config)
         (fanMode (default no_defaults (defaults data))) (fanModes data) = inr fan
    /\ (if is_swing_supported (swingModes data)
        then exists sw,
               pick_default (conf_default_swing_mode config)
                 (swingMode (default no_defaults (defaults data)))
                 (default [] (swingModes data)) = inr sw
               /\ swing = Some sw
        else swing = None)
    /\ _operation_modes dev
       = HVAC_MODE_OFF :: filter (fun x => in_list x HVAC_MODES = true)
                                 (operationModes data)
    /\ _fan_modes dev = fanModes data
    /\ _swing_modes dev = swingModes data
    /\ _default_on_operation_mode dev = on_mode
    /\ s0 = {| _hvac_mode := HVAC_MODE_OFF; _current_fan_mode := fan;
               _current_swing_mode := swing;
               _target_temperature := minTemperature data;
               _last_on_operation := None;
               _current_temperature := None; _current_humidity := None |}.
Proof.
  unfold init.
  destruct (pick_default (conf_default_operation_mode config) _ _)
    as [|on_mode] eqn:Hmode; [discriminate|].
  destruct (pick_default (conf_default_fan_mode config) _ _) as [|fan] eqn:Hfan;
    [discriminate|].
  destruct (is_swing_supported (swingModes data)) eqn:Hsw.
  - destruct (pick_default (conf_default_swing_mode config) _ _) as [|sw] eqn:Hswing;
      [discriminate|].
    intros [= <- <-]. exists on_mode, fan, (Some sw). cbn.
    repeat split; eauto.
  - intros [= <- <-]. exists on_mode, fan, None. cbn. repeat split; eauto.
Qed.

(** X1.  The mode list that [__init__] builds consists of off and of
    exactly those operation modes of the device file that Home Assistant
    knows; off comes first. *)
Theorem init_operation_modes config data dev s0 :
  init config data = inr (dev, s0) ->
  (exists rest, _operation_modes dev = HVAC_MODE_OFF :: rest)
  /\ (forall m, m ∈ _operation_modes dev <->
                m = HVAC_MODE_OFF \/ (m ∈ operationModes data /\ m ∈ HVAC_MODES)).
Proof.
  intros Hinit. apply init_inr in Hinit as (? & ? & ? & _ & _ & _ & Hmodes & _).
  rewrite Hmodes. split; [eauto|].
  intros m. rewrite elem_of_cons, list_elem_of_filter, in_list_elem. tauto.
Qed.


(** X3.  A freshly constructed entity is off at the minimum temperature
    with no last-on operation; its fan mode is one of the fan modes; its
    swing mode is one of the swing modes when there are any and [None]
    when there are none. *)
Theorem init_state config data dev s0 :
  init config data = inr (dev, s0) ->
  _hvac_mode s0 = HVAC_MODE_OFF
  /\ _target_temperature s0 = minTemperature data
  /\ _last_on_operation s0 = None
  /\ _current_fan_mode s0 ∈ _fan_modes dev
  /\ match _swing_modes dev with
     | Some (x :: l) => exists sw, _current_swing_mode s0 = Some sw /\ sw ∈ x :: l
     | _ => _current_swing_mode s0 = None
     end.
Proof.
  intros Hinit.
  apply init_inr in Hinit
    as (on_mode & fan & swing & _ & Hfan & Hswing & _ & Hfans & Hswings & _ & ->).
  cbn. rewrite Hfans, Hswings. repeat split.
  - apply pick_default_elem in Hfan. exact Hfan.
  - destruct (swingModes data) as [[|x l]|]; cbn in Hswing; try exact Hswing.
    destruct Hswing as (sw & Hsw & ->). apply pick_default_elem in Hsw. eauto.
Qed.

(** X4.  The default operation mode: a configured mode that is in the mode
    list is taken; a configured mode that is not in the list is replaced
    by off, whatever the device file proposes; and with nothing configured
    and nothing in the file the default is off as well. *)
Theorem init_default_operation_mode config data dev s0 :
  init config data = inr (dev, s0) ->
  (forall m, conf_default_operation_mode config = Some m -> m <> "" ->
     m ∈ _operation_modes dev -> _default_on_operation_mode dev = m)
  /\ (forall m, conf_default_operation_mode config = Some m -> m <> "" ->
       ~ m ∈ _operation_modes dev -> _default_on_operation_mode dev = HVAC_MODE_OFF)
  /\ (conf_default_operation_mode config = None -> defaults data = None ->
      _default_on_operation_mode dev = HVAC_MODE_OFF).
Proof.
  intros Hinit.
  apply init_inr in Hinit as (on_mode & ? & ? & Hmode & _ & _ & Hmodes & _ & _ & Hdef & _).
  rewrite Hmodes, Hdef. unfold pick_default in Hmode.
  repeat split.
  - intros m Hconf Hne Hin. rewrite Hconf in Hmode.
    apply String.eqb_neq in Hne. unfold or_str, truthy_str in Hmode.
    rewrite Hne in Hmode. cbn [negb andb] in Hmode.
    apply in_list_elem in Hin. rewrite Hne, Hin in Hmode. cbn [negb andb] in Hmode.
    congruence.
  - intros m Hconf Hne Hin. rewrite Hconf in Hmode.
    apply String.eqb_neq in Hne. unfold or_str, truthy_str in Hmode.
    rewrite Hne in Hmode. cbn [negb andb] in Hmode. rewrite Hne in Hmode.
    destruct (in_list m _) eqn:Hm; [apply in_list_elem in Hm; contradiction|].
    cbn [negb andb first] in Hmode. congruence.
  - intros Hconf Hfile. rewrite Hconf, Hfile in Hmode.
    cbn [default no_defaults operationMode or_str truthy_str first] in Hmode.
    congruence.
Qed.

Section Behaviour.
Context `{host : Host}.
Variable dev : Device.

Implicit Types (w : World) (s : State) (o : option string).

Ltac frame_call :=
  match goal with
  | |- context [send_command dev ?o ?w] =>
      let t := fresh "t" in let Ht := fresh "Ht" in
      destruct (send_command_frame dev o w) as [t Ht]; rewrite Ht; clear Ht
  | |- context [async_set_hvac_mode dev ?m ?w] =>
      let t := fresh "t" in let Ht := fresh "Ht" in
      destruct (set_hvac_mode_run dev m w) as [t Ht]; rewrite Ht; clear Ht
  end.

(** *** Turning on and off *)

(** With a last-on operation recorded, turning on is a mode request for
    it. *)
Lemma turn_on_last_call w m :
  _last_on_operation (fields w) = Some m -> m <> "" ->
  async_turn_on dev w = async_set_hvac_mode dev m w.
Proof.
  intros Hlast Hne. apply String.eqb_neq in Hne.
  unfold async_turn_on. unmonad. rewrite Hlast. unfold truthy_str.
  rewrite Hne. reflexivity.
Qed.

(** X5.  When a last-on operation is recorded, [async_turn_on] requests
    that mode, whatever the configured default is, and it is the HVAC mode
    afterwards. *)
Theorem turn_on_restores_last w m :
  _last_on_operation (fields w) = Some m -> m <> "" ->
  async_turn_on dev w = async_set_hvac_mode dev m w
  /\ _hvac_mode (fields_after (async_turn_on dev) w) = m.
Proof.
  intros Hlast Hne. pose proof (turn_on_last_call w m Hlast Hne) as Hcall.
  split; [exact Hcall|].
  unfold fields_after. rewrite Hcall. apply (set_hvac_mode_fields dev m w).
Qed.

(** The fields after a power reading that differs from the previous one. *)
Lemma power_event_changed_fields w old new :
  new <> old ->
  fields_after (_async_power_sensor_changed dev (Some old) (Some new)) w =
    if String.eqb new STATE_ON && String.eqb (_hvac_mode (fields w)) HVAC_MODE_OFF
    then set_hvac_mode
           (if _power_sensor_restore_state dev
               && truthy_str (_last_on_operation (fields w))
            then default "" (_last_on_operation (fields w))
            else STATE_ON)
           (fields w)
    else if String.eqb new STATE_OFF
         then set_hvac_mode HVAC_MODE_OFF (fields w)
         else fields w.
Proof.
  intros Hne. apply String.eqb_neq in Hne.
  unfold _async_power_sensor_changed. unmonad. cbn. rewrite Hne.
  destruct (String.eqb new STATE_ON && String.eqb (_hvac_mode (fields w)) HVAC_MODE_OFF);
    cbn.
  - destruct (_power_sensor_restore_state dev
              && truthy_str (_last_on_operation (fields w))); reflexivity.
  - destruct (String.eqb new STATE_OFF); reflexivity.
Qed.

(** X6.  Unlike a manual turn-off, a turn-off seen by the power sensor
    keeps the last-on operation: after a mode request for [m], a power
    reading that changes to off, and [async_turn_on], the entity is in
    mode [m] again. *)
Theorem external_off_then_on_restores w m old :
  m <> "" -> lower m <> HVAC_MODE_OFF -> old <> STATE_OFF ->
  _hvac_mode (fields (session dev [SetHvacMode m; PowerEvent (Some old) (Some STATE_OFF)] w))
    = HVAC_MODE_OFF
  /\ _hvac_mode
       (fields (session dev [SetHvacMode m; PowerEvent (Some old) (Some STATE_OFF); TurnOn] w))
     = m.
Proof.
  intros Hne Hon Hold. apply String.eqb_neq in Hon.
  cbn [session fold_left call].
  destruct (set_hvac_mode_run dev m w) as [t Ht]. rewrite Ht. cbn [fst].
  rewrite Hon.
  set (w1 := {| fields := set_last_on_operation (Some m) (set_hvac_mode m (fields w));
                trace := trace w ++ t ++ [UpdateHaState] |}).
  assert (Hoff : fields (fst (_async_power_sensor_changed dev (Some old) (Some STATE_OFF) w1))
                 = set_hvac_mode HVAC_MODE_OFF (fields w1)).
  { change (fields (fst (?m ?x))) with (fields_after m x).
    rewrite power_event_changed_fields by congruence. reflexivity. }
  split; [rewrite Hoff; reflexivity|].
  erewrite turn_on_last_call; [|rewrite Hoff; reflexivity|exact Hne].
  apply (set_hvac_mode_fields dev m).
Qed.

(** X7.  A power reading that changes to on while the entity is off sets
    the HVAC mode to the last-on operation when restoring is enabled and
    one is recorded, and to [STATE_ON] otherwise; while the entity is not
    off it changes no field. *)
Theorem power_on_policy w old :
  old <> STATE_ON ->
  (_hvac_mode (fields w) = HVAC_MODE_OFF ->
     _hvac_mode (fields_after (_async_power_sensor_changed dev (Some old) (Some STATE_ON)) w)
     = if _power_sensor_restore_state dev && truthy_str (_last_on_operation (fields w))
       then default "" (_last_on_operation (fields w))
       else STATE_ON)
  /\ (_hvac_mode (fields w) <> HVAC_MODE_OFF ->
      fields_after (_async_power_sensor_changed dev (Some old) (Some STATE_ON)) w
      = fields w).
Proof.
  intros Hold. rewrite power_event_changed_fields by congruence. split.
  - intros Hoff. rewrite Hoff. reflexivity.
  - intros Hon. apply String.eqb_neq in Hon. rewrite Hon. reflexivity.
Qed.

(** X8.  The power-sensor handler writes no field but the HVAC mode
    (putting the old mode back gives the old fields), and a reading that
    is neither on nor off changes no field at all. *)
Theorem power_event_touches_mode_only w old new :
  set_hvac_mode (_hvac_mode (fields w))
    (fields_after (_async_power_sensor_changed dev old new) w)
  = set_hvac_mode (_hvac_mode (fields w)) (fields w)
  /\ (forall n, new = Some n -> n <> STATE_ON -> n <> STATE_OFF ->
        fields_after (_async_power_sensor_changed dev old new) w = fields w).
Proof.
  split.
  - destruct new as [n|]; [|reflexivity]. destruct old as [p|]; [|reflexivity].
    destruct (String.eqb_spec n p) as [->|Hne].
    + unfold _async_power_sensor_changed. unmonad. cbn.
      rewrite String.eqb_refl. reflexivity.
    + rewrite power_event_changed_fields by exact Hne.
      destruct (String.eqb n STATE_ON && _); [reflexivity|].
      destruct (String.eqb n STATE_OFF); reflexivity.
  - intros n -> Hon Hoff. apply String.eqb_neq in Hon, Hoff.
    destruct old as [p|]; [|reflexivity].
    destruct (String.eqb_spec n p) as [->|Hne].
    + unfold _async_power_sensor_changed. unmonad. cbn.
      rewrite String.eqb_refl. reflexivity.
    + rewrite power_event_changed_fields by exact Hne.
      rewrite Hon, Hoff. reflexivity.
Qed.

(** X9.  Turning off twice: the second [async_turn_off] finds the mode
    ["off"] and only writes the state back, transmitting nothing. *)
Theorem turn_off_twice w :
  emitted (async_turn_off dev) (fst (async_turn_off dev w)) = [UpdateHaState].
Proof.
  unfold async_turn_off at 2.
  destruct (set_hvac_mode_run dev HVAC_MODE_OFF w) as [t Ht]. rewrite Ht. cbn [fst].
  unfold async_turn_off, async_set_hvac_mode, send_command,
    async_handle_exception_deco, handle_exception_deco, send_command_body.
  unmonad. cbn. apply drop_app_length.
Qed.

(** *** Temperature and humidity readings *)

(** X10.  A temperature event with a reading: an unknown reading changes
    nothing; a reading that [float] rejects changes nothing and is logged;
    a reading that [float] accepts replaces the current temperature and
    nothing else.  In every case the handler returns normally, writes the
    state back and makes no transport call. *)
Theorem temp_reading w old new :
  (new = STATE_UNKNOWN ->
     fields_after (_async_temp_sensor_changed old (Some new)) w = fields w
     /\ emitted (_async_temp_sensor_changed old (Some new)) w = [UpdateHaState])
  /\ (new <> STATE_UNKNOWN -> py_float new = None ->
      fields_after (_async_temp_sensor_changed old (Some new)) w = fields w
      /\ emitted (_async_temp_sensor_changed old (Some new)) w
         = [LogException "Unable to update from temperature sensor"; UpdateHaState])
  /\ (forall x, new <> STATE_UNKNOWN -> py_float new = Some x ->
      fields_after (_async_temp_sensor_changed old (Some new)) w
        = set_current_temperature (Some x) (fields w)
      /\ emitted (_async_temp_sensor_changed old (Some new)) w = [UpdateHaState])
  /\ outcome (_async_temp_sensor_changed old (Some new)) w = inr VNone.
Proof.
  unfold _async_temp_sensor_changed, _async_update_temp, handle_exception_deco,
    update_temp_body.
  unmonad. cbn.
  destruct (String.eqb_spec new STATE_UNKNOWN) as [Hu|Hu]; cbn.
  - split; [|split; [|split]]; try (intros; contradiction); try reflexivity.
    intros _. split; [reflexivity | apply drop_app_length].
  - destruct (py_float new) as [x|]; cbn;
      (split; [|split; [|split]]); try (intros; contradiction);
      try (intros; discriminate); try reflexivity.
    + intros y _ [= <-]. split; [reflexivity | apply drop_app_length].
    + intros _ _. split; [reflexivity|].
      rewrite <- app_assoc. apply drop_app_length.
Qed.

(** X11.  The same for a humidity event and the current humidity. *)
Theorem humidity_reading w old new :
  (new = STATE_UNKNOWN ->
     fields_after (_async_humidity_sensor_changed old (Some new)) w = fields w
     /\ emitted (_async_humidity_sensor_changed old (Some new)) w = [UpdateHaState])
  /\ (new <> STATE_UNKNOWN -> py_float new = None ->
      fields_after (_async_humidity_sensor_changed old (Some new)) w = fields w
      /\ emitted (_async_humidity_sensor_changed old (Some new)) w
         = [LogException "Unable to update from humidity sensor"; UpdateHaState])
  /\ (forall x, new <> STATE_UNKNOWN -> py_float new = Some x ->
      fields_after (_async_humidity_sensor_changed old (Some new)) w
        = set_current_humidity (Some x) (fields w)
      /\ emitted (_async_humidity_sensor_changed old (Some new)) w = [UpdateHaState])
  /\ outcome (_async_humidity_sensor_changed old (Some new)) w = inr VNone.
Proof.
  unfold _async_humidity_sensor_changed, _async_update_humidity,
    handle_exception_deco, update_humidity_body.
  unmonad. cbn.
  destruct (String.eqb_spec new STATE_UNKNOWN) as [Hu|Hu]; cbn.
  - split; [|split; [|split]]; try (intros; contradiction); try reflexivity.
    intros _. split; [reflexivity | apply drop_app_length].
  - destruct (py_float new) as [x|]; cbn;
      (split; [|split; [|split]]); try (intros; contradiction);
      try (intros; discriminate); try reflexivity.
    + intros y _ [= <-]. split; [reflexivity | apply drop_app_length].
    + intros _ _. split; [reflexivity|].
      rewrite <- app_assoc. apply drop_app_length.
Qed.

(** *** Mode and temperature requests *)

(** X12.  [async_set_hvac_mode] commits optimistically: whatever the
    lookup and the transmitter do, it returns normally with the requested
    mode recorded, and with it as last-on operation unless it is off (in
    any letter case), in which case none is recorded. *)
Theorem set_hvac_mode_commits mode w :
  fields_after (async_set_hvac_mode dev mode) w
    = set_last_on_operation
        (if String.eqb (lower mode) HVAC_MODE_OFF then None else Some mode)
        (set_hvac_mode mode (fields w))
  /\ outcome (async_set_hvac_mode dev mode) w = inr VNone
  /\ emitted (async_set_hvac_mode dev mode) w
     = emitted (send_command dev (Some mode)) w ++ [UpdateHaState].
Proof.
  unfold fields_after, outcome, emitted, trace_after, async_set_hvac_mode.
  unmonad. cbn.
  destruct (send_command_frame dev (Some mode) w) as [t Ht]. rewrite Ht. cbn.
  destruct (String.eqb (lower mode) HVAC_MODE_OFF); cbn;
    (split; [reflexivity|]; split; [reflexivity|]);
    rewrite <- app_assoc, !drop_app_length; reflexivity.
Qed.

(** The value that [async_set_temperature] stores. *)
Lemma set_temperature_accepts t :
  (_min_temperature dev <= t <= _max_temperature dev)%Q ->
  Qlt_bool t (_min_temperature dev) || Qlt_bool (_max_temperature dev) t = false.
Proof.
  intros [Hlo Hhi].
  rewrite (Qlt_bool_false _ _ Hlo), (Qlt_bool_false _ _ Hhi). reflexivity.
Qed.

(** X13.  A temperature request without a mode stores the rounded value
    first and sends afterwards: while the entity is on, what it emits is
    what [send_command] emits from the state that already holds the new
    temperature, followed by the state write-back; while it is off, it
    only writes the state back.  No other field changes. *)
Theorem set_temperature_then_send t w :
  (_min_temperature dev <= t <= _max_temperature dev)%Q ->
  let stored := if Qeq_bool (_precision dev) PRECISION_WHOLE
                then round t else round1 t in
  let w' := {| fields := set_target_temperature stored (fields w);
               trace := trace w |} in
  fields_after (async_set_temperature dev None (Some t)) w
    = set_target_temperature stored (fields w)
  /\ emitted (async_set_temperature dev None (Some t)) w
     = if String.eqb (lower (_hvac_mode (fields w))) HVAC_MODE_OFF
       then [UpdateHaState]
       else emitted (send_command dev None) w' ++ [UpdateHaState].
Proof.
  intros Hin stored w'.
  unfold fields_after, emitted, trace_after, async_set_temperature.
  rewrite (set_temperature_accepts t Hin). unmonad. cbn.
  fold stored. fold w'.
  destruct (String.eqb (lower (_hvac_mode (fields w))) HVAC_MODE_OFF); cbn.
  - split; [reflexivity | apply drop_app_length].
  - destruct (send_command_frame dev None w') as [u Hu]. rewrite Hu. cbn.
    split; [reflexivity|].
    rewrite <- app_assoc, !drop_app_length. reflexivity.
Qed.

(** X14.  A temperature request that carries a mode is the mode request
    made from the state that holds the new temperature, so the code that
    goes out is the one for the new temperature; a request that carries a
    mode but no temperature does nothing at all. *)
Theorem set_temperature_with_mode m t w :
  (m <> "" ->
   (_min_temperature dev <= t <= _max_temperature dev)%Q ->
   async_set_temperature dev (Some m) (Some t) w
   = async_set_hvac_mode dev m
       {| fields := set_target_temperature
                      (if Qeq_bool (_precision dev) PRECISION_WHOLE
                       then round t else round1 t) (fields w);
          trace := trace w |})
  /\ async_set_temperature dev (Some m) None w = (w, inr VNone).
Proof.
  split; [|reflexivity].
  intros Hne Hin. apply String.eqb_neq in Hne.
  unfold async_set_temperature. rewrite (set_temperature_accepts t Hin).
  unmonad. unfold truthy_str. rewrite Hne. cbn.
  frame_call. reflexivity.
Qed.

(** *** What can raise *)


(** *** The command lookup *)

(** X16.  A fan mode for which the operation mode has no entry (or an
    empty one) is looked up as the fan mode ["default"]. *)
Theorem resolve_fan_default mode s d :
  _commands dev !! mode = Some (VDict d) ->
  truthy (default VNone (d !! _current_fan_mode s)) = false ->
  resolve dev mode s = resolve dev mode (set_current_fan_mode "default" s).
Proof.
  intros Hmode Hfan. unfold resolve. cbn. rewrite Hmode. cbn. rewrite Hfan.
  destruct (truthy (default VNone (d !! "default"))); reflexivity.
Qed.

Lemma dict_with_entry_truthy (f : gmap string value) k v :
  f !! k = Some v -> truthy (VDict f) = true.
Proof.
  intros Hk. cbn. apply negb_true_iff, bool_decide_eq_false.
  intros ->. rewrite lookup_empty in Hk. discriminate.
Qed.

(** X17.  With swing support, an entry for the swing mode that is a code
    rather than a table is the result of the lookup whatever the target
    temperature is; an entry that is a table is searched for the formatted
    target temperature, and a temperature without a code is a
    [KeyError]. *)
Theorem resolve_swing_entry mode s d f swing :
  is_swing_supported (_swing_modes dev) = true ->
  _commands dev !! mode = Some (VDict d) ->
  d !! _current_fan_mode s = Some (VDict f) ->
  _current_swing_mode s = Some swing ->
  (forall code, f !! swing = Some (VStr code) ->
     forall t, resolve dev mode (set_target_temperature t s) = inr (VStr code))
  /\ (forall table, f !! swing = Some (VDict table) ->
      resolve dev mode s
      = match table !! format_g (_target_temperature s) with
        | Some code => inr code
        | None => inl KeyError
        end).
Proof.
  intros Hsw Hmode Hfan Hswing. unfold resolve. cbn.
  rewrite Hsw, Hmode, Hswing. cbn. rewrite Hfan. cbn [default]. unfold id.
  split.
  - intros code Hcode t. rewrite (dict_with_entry_truthy f swing _ Hcode).
    cbn. rewrite Hcode. reflexivity.
  - intros table Htable. rewrite (dict_with_entry_truthy f swing _ Htable).
    cbn. rewrite Htable. reflexivity.
Qed.

(** *** Sends that fail *)

(** The run of a send, for a mode other than off, whose lookup raises. *)
Lemma send_lookup_failure_run o w e :
  lower (or_current o (_hvac_mode (fields w))) <> HVAC_MODE_OFF ->
  resolve dev (or_current o (_hvac_mode (fields w))) (fields w) = inl e ->
  emitted (send_command dev o) w =
    match _commands dev !! "on" with
    | Some on =>
        if delivers (trace w) on
        then [Send on; Sleep (_delay dev); LogException "Send command failed"]
        else [Send on; LogException "Send command failed"]
    | None => [LogException "Send command failed"]
    end.
Proof.
  intros Htarget Hres. apply String.eqb_neq in Htarget.
  destruct w as [s tr].
  unfold send_command, async_handle_exception_deco, handle_exception_deco,
    send_command_body.
  unmonad. cbn in *. rewrite Htarget.
  destruct (_commands dev !! "on") as [on|]; cbn.
  - destruct (delivers tr on); cbn.
    + rewrite Hres. cbn. rewrite <- !app_assoc. apply drop_app_length.
    + rewrite <- !app_assoc. apply drop_app_length.
  - rewrite Hres. cbn. apply drop_app_length.
Qed.

(** X18.  The wake code goes out before the lookup is made: a send for a
    mode other than off whose lookup fails still transmits the on code and
    sleeps, and only then logs the failure; without an on code it only
    logs. *)
Theorem send_lookup_failure_still_wakes o w e :
  lower (or_current o (_hvac_mode (fields w))) <> HVAC_MODE_OFF ->
  resolve dev (or_current o (_hvac_mode (fields w))) (fields w) = inl e ->
  (forall on, _commands dev !! "on" = Some on -> delivers (trace w) on = true ->
     emitted (send_command dev o) w
     = [Send on; Sleep (_delay dev); LogException "Send command failed"])
  /\ (_commands dev !! "on" = None ->
      emitted (send_command dev o) w = [LogException "Send command failed"]).
Proof.
  intros Htarget Hres. rewrite (send_lookup_failure_run o w e Htarget Hres).
  split.
  - intros on -> ->. reflexivity.
  - intros ->. reflexivity.
Qed.

(** X19.  In the mode [STATE_ON] that the power-sensor handler stores, a
    send looks up the on code itself as if it were a mode table: with an
    on code that is a string the lookup raises [AttributeError], so a
    temperature request in that mode transmits the on code and nothing
    else. *)
Theorem on_marker_sends_only_wake_code w code t :
  _hvac_mode (fields w) = STATE_ON ->
  _commands dev !! "on" = Some (VStr code) ->
  delivers (trace w) (VStr code) = true ->
  (_min_temperature dev <= t <= _max_temperature dev)%Q ->
  resolve dev STATE_ON (fields w) = inl AttributeError
  /\ emitted (async_set_temperature dev None (Some t)) w
     = [Send (VStr code); Sleep (_delay dev); LogException "Send command failed";
        UpdateHaState].
Proof.
  intros Hon Hcode Hok Hin.
  assert (Hres : forall s, resolve dev STATE_ON s = inl AttributeError).
  { intros s. unfold resolve, subscript, STATE_ON. rewrite Hcode. reflexivity. }
  split; [apply Hres|].
  pose proof (set_temperature_accepts t Hin) as Hacc.
  unfold emitted, trace_after, async_set_temperature. rewrite Hacc. unmonad. cbn.
  rewrite Hon. cbn.
  set (w' := {| fields := set_target_temperature _ (fields w); trace := trace w |}).
  assert (Hsend : emitted (send_command dev None) w'
                  = [Send (VStr code); Sleep (_delay dev);
                     LogException "Send command failed"]).
  { rewrite (send_lookup_failure_run None w' AttributeError).
    - rewrite Hcode. cbn. rewrite Hok. reflexivity.
    - cbn. rewrite Hon. discriminate.
    - cbn. rewrite Hon. apply Hres. }
  change (String.eqb (lower STATE_ON) HVAC_MODE_OFF) with false. cbn.
  destruct (send_command_frame dev None w') as [u Hu].
  unfold emitted, trace_after in Hsend. rewrite Hu in Hsend. cbn in Hsend.
  rewrite drop_app_length in Hsend. rewrite Hu. cbn. subst u.
  rewrite <- app_assoc. apply drop_app_length.
Qed.

(** X20.  One send makes at most two transport calls, and it neither
    writes the state back nor logs a warning. *)
Theorem send_command_bounded o w :
  (length (sends (emitted (send_command dev o) w)) <= 2)%nat
  /\ Forall (fun e => e <> UpdateHaState /\ forall msg, e <> LogWarning msg)
       (emitted (send_command dev o) w).
Proof.
  destruct w as [s tr].
  unfold send_command, async_handle_exception_deco, handle_exception_deco,
    send_command_body.
  unmonad. cbn.
  destruct (String.eqb (lower (or_current o (_hvac_mode s))) HVAC_MODE_OFF).
  - destruct (String.eqb (_hvac_mode s) HVAC_MODE_OFF); cbn.
    + rewrite drop_all. split; [cbv; lia | constructor].
    + destruct (_commands dev !! "off") as [c|]; cbn.
      * destruct (delivers tr c); cbn; rewrite <- ?app_assoc, drop_app_length;
          (split; [cbv; lia | repeat constructor; discriminate]).
      * rewrite drop_app_length. split; [cbv; lia | repeat constructor; discriminate].
  - destruct (_commands dev !! "on") as [c|]; cbn.
    + destruct (delivers tr c); cbn.
      * destruct (resolve dev _ s) as [e|cmd]; cbn.
        -- rewrite <- !app_assoc, drop_app_length.
           split; [cbv; lia | repeat constructor; discriminate].
        -- destruct (delivers _ cmd); cbn; rewrite <- !app_assoc, drop_app_length;
             (split; [cbv; lia | repeat constructor; discriminate]).
      * rewrite <- !app_assoc, drop_app_length.
        split; [cbv; lia | repeat constructor; discriminate].
    + destruct (resolve dev _ s) as [e|cmd]; cbn.
      * rewrite drop_app_length. split; [cbv; lia | repeat constructor; discriminate].
      * destruct (delivers _ cmd); cbn; rewrite <- ?app_assoc, drop_app_length;
          (split; [cbv; lia | repeat constructor; discriminate]).
Qed.

(** *** The target temperature stays in range *)







End Behaviour.

(** *** Start-up *)

Section StartupFacts.
Import Setup.
Context `{host : Host}.
Variable dev : Device.
Variable sensors : Sensors.

Implicit Types (w : World) (last : LastState).

(** A sensor block changes nothing but the reading it is about, raises
    nothing, and makes no transport call. *)
Lemma track_temperature_run states w :
  exists x u,
    track_with_reading (_temperature_sensor sensors) TempSensorChanged
      _async_update_temp states w
    = ({| fields := set_current_temperature x (fields w); trace := trace w ++ u |},
       inr (if truthy_str (_temperature_sensor sensors)
            then [(default "" (_temperature_sensor sensors), TempSensorChanged)]
            else []))
    /\ sends u = [].
Proof.
  destruct w as [s tr]. unfold track_with_reading.
  destruct (truthy_str (_temperature_sensor sensors)).
  - unfold _async_update_temp, handle_exception_deco, update_temp_body. unmonad. cbn.
    destruct (states _) as [st|]; cbn.
    + destruct (negb (String.eqb st STATE_UNKNOWN)); cbn.
      * destruct (py_float st) as [x|]; cbn.
        -- exists (Some x), []. rewrite app_nil_r. split; reflexivity.
        -- eexists (_current_temperature s), [LogException _]. destruct s.
           split; reflexivity.
      * exists (_current_temperature s), []. rewrite app_nil_r. destruct s.
        split; reflexivity.
    + exists (_current_temperature s), []. rewrite app_nil_r. destruct s.
      split; reflexivity.
  - exists (_current_temperature s), []. rewrite app_nil_r. destruct s.
    split; reflexivity.
Qed.

Lemma track_humidity_run states w :
  exists x u,
    track_with_reading (_humidity_sensor sensors) HumiditySensorChanged
      _async_update_humidity states w
    = ({| fields := set_current_humidity x (fields w); trace := trace w ++ u |},
       inr (if truthy_str (_humidity_sensor sensors)
            then [(default "" (_humidity_sensor sensors), HumiditySensorChanged)]
            else []))
    /\ sends u = [].
Proof.
  destruct w as [s tr]. unfold track_with_reading.
  destruct (truthy_str (_humidity_sensor sensors)).
  - unfold _async_update_humidity, handle_exception_deco, update_humidity_body.
    unmonad. cbn.
    destruct (states _) as [st|]; cbn.
    + destruct (negb (String.eqb st STATE_UNKNOWN)); cbn.
      * destruct (py_float st) as [x|]; cbn.
        -- exists (Some x), []. rewrite app_nil_r. split; reflexivity.
        -- eexists (_current_humidity s), [LogException _]. destruct s.
           split; reflexivity.
      * exists (_current_humidity s), []. rewrite app_nil_r. destruct s.
        split; reflexivity.
    + exists (_current_humidity s), []. rewrite app_nil_r. destruct s.
      split; reflexivity.
  - exists (_current_humidity s), []. rewrite app_nil_r. destruct s.
    split; reflexivity.
Qed.

(** [restore] on a saved state that has both subscripted attributes. *)
Lemma restore_run last f t w :
  attr_fan_mode last = Some f -> attr_temperature last = Some t ->
  restore (Some last) w
  = ({| fields := {| _hvac_mode := ls_state last;
                     _current_fan_mode := f;
                     _current_swing_mode := attr_swing_mode last;
                     _target_temperature := t;
                     _last_on_operation := attr_last_on_operation last;
                     _current_temperature := _current_temperature (fields w);
                     _current_humidity := _current_humidity (fields w) |};
        trace := trace w |}, inr tt).
Proof.
  intros Hfan Htemp. unfold restore. unmonad. rewrite Hfan, Htemp. reflexivity.
Qed.

(** After a [restore] that returned, the rest of [async_added_to_hass]
    may replace the two readings, logs at most, and returns the
    registrations of the configured sensors. *)
Lemma added_to_hass_after_restore last_state states w w1 :
  restore last_state w = (w1, inr tt) ->
  exists ct ch u,
    async_added_to_hass sensors last_state states w
    = ({| fields := set_current_humidity ch (set_current_temperature ct (fields w1));
          trace := trace w1 ++ u |},
       inr ((if truthy_str (_temperature_sensor sensors)
             then [(default "" (_temperature_sensor sensors), TempSensorChanged)]
             else [])
            ++ (if truthy_str (_humidity_sensor sensors)
                then [(default "" (_humidity_sensor sensors), HumiditySensorChanged)]
                else [])
            ++ (if truthy_str (_power_sensor sensors)
                then [(default "" (_power_sensor sensors), PowerSensorChanged)]
                else [])))
    /\ sends u = [].
Proof.
  intros Hres. unfold async_added_to_hass.
  unfold mbind at 1, M_bind at 1. rewrite Hres.
  destruct (track_temperature_run states w1) as (ct & u1 & Ht & Hu1).
  unfold mbind at 1, M_bind at 1. rewrite Ht.
  destruct (track_humidity_run states
              {| fields := set_current_temperature ct (fields w1);
                 trace := trace w1 ++ u1 |}) as (ch & u2 & Hh & Hu2).
  unfold mbind at 1, M_bind at 1. rewrite Hh.
  exists ct, ch, (u1 ++ u2). cbn. rewrite <- app_assoc.
  split; [reflexivity|].
  unfold sends in *. rewrite filter_app, Hu1, Hu2. reflexivity.
Qed.

(** X22.  A saved state without [fan_mode] makes [async_added_to_hass]
    raise [KeyError] after the HVAC mode alone has been overwritten, and
    one without [temperature] after the HVAC mode and the fan mode have;
    in both cases no sensor has been looked at. *)
Theorem added_to_hass_missing_attribute last states w :
  (attr_fan_mode last = None ->
     async_added_to_hass sensors (Some last) states w
     = ({| fields := set_hvac_mode (ls_state last) (fields w); trace := trace w |},
        inl KeyError))
  /\ (forall f, attr_fan_mode last = Some f -> attr_temperature last = None ->
      async_added_to_hass sensors (Some last) states w
      = ({| fields := set_current_fan_mode f
                        (set_hvac_mode (ls_state last) (fields w));
            trace := trace w |},
         inl KeyError)).
Proof.
  unfold async_added_to_hass, restore. unmonad. split.
  - intros ->. reflexivity.
  - intros f -> ->. reflexivity.
Qed.

(** X23.  With a complete saved state, the entity comes up with the saved
    mode, fan mode, target temperature, swing mode and last-on operation,
    whatever sensors are configured and whatever they read; in particular
    the present state of the power sensor is not applied. *)
Theorem added_to_hass_restores last f t states w :
  attr_fan_mode last = Some f -> attr_temperature last = Some t ->
  let s' := fields_after (async_added_to_hass sensors (Some last) states) w in
  _hvac_mode s' = ls_state last
  /\ _current_fan_mode s' = f
  /\ _target_temperature s' = t
  /\ _current_swing_mode s' = attr_swing_mode last
  /\ _last_on_operation s' = attr_last_on_operation last.
Proof.
  intros Hfan Htemp.
  destruct (added_to_hass_after_restore (Some last) states w _
              (restore_run last f t w Hfan Htemp)) as (ct & ch & u & Hrun & _).
  unfold fields_after. rewrite Hrun. cbn. repeat split.
Qed.

(** X24.  [async_added_to_hass] never makes a transport call.  When the
    restoring part returns, the registrations made are those of the
    configured temperature, humidity and power sensors, in this order;
    when it raises, the exception goes to the caller. *)
Theorem added_to_hass_registrations last_state states w :
  sends (emitted (async_added_to_hass sensors last_state states) w) = []
  /\ outcome (async_added_to_hass sensors last_state states) w
     = match outcome (restore last_state) w with
       | inl e => inl e
       | inr _ =>
           inr ((if truthy_str (_temperature_sensor sensors)
                 then [(default "" (_temperature_sensor sensors), TempSensorChanged)]
                 else [])
                ++ (if truthy_str (_humidity_sensor sensors)
                    then [(default "" (_humidity_sensor sensors), HumiditySensorChanged)]
                    else [])
                ++ (if truthy_str (_power_sensor sensors)
                    then [(default "" (_power_sensor sensors), PowerSensorChanged)]
                    else []))
       end.
Proof.
  assert (Hres : exists s1 r, restore last_state w = ({| fields := s1; trace := trace w |}, r)
                              /\ (r = inr tt \/ exists e, r = inl e)).
  { destruct w as [s tr]. unfold restore. unmonad.
    destruct last_state as [last|]; [|eexists _, _; split; [reflexivity | auto]].
    destruct (attr_fan_mode last) as [f|]; cbn;
      [|eexists _, _; split; [reflexivity | eauto]].
    destruct (attr_temperature last) as [t|]; cbn;
      eexists _, _; (split; [reflexivity | eauto]). }
  destruct Hres as (s1 & r & Hres & [-> | [e ->]]).
  - destruct (added_to_hass_after_restore last_state states w _ Hres)
      as (ct & ch & u & Hrun & Hu).
    unfold emitted, trace_after, outcome. rewrite Hrun, Hres. cbn.
    rewrite drop_app_length. split; [exact Hu | reflexivity].
  - assert (Hrun : async_added_to_hass sensors last_state states w
                   = ({| fields := s1; trace := trace w |}, inl e)).
    { unfold async_added_to_hass. unfold mbind at 1, M_bind at 1.
      rewrite Hres. reflexivity. }
    unfold emitted, trace_after, outcome. rewrite Hrun, Hres. cbn.
    rewrite drop_all. split; reflexivity.
Qed.

(** X25.  The shape of the mode fields (see [mode_ok]) survives a
    restart: from a complete saved state whose mode is in the mode list or
    is [STATE_ON], and whose last-on operation, if any, is in the list,
    every session that asks only for modes of the list ends with the HVAC
    mode in the list or equal to [STATE_ON]. *)
Theorem restored_session_modes last f t states w ops :
  well_formed dev ->
  attr_fan_mode last = Some f -> attr_temperature last = Some t ->
  (ls_state last ∈ _operation_modes dev \/ ls_state last = STATE_ON) ->
  (forall m, attr_last_on_operation last = Some m -> m ∈ _operation_modes dev) ->
  (forall (c : op) m, c ∈ ops -> requested_mode c = Some m ->
     m ∈ _operation_modes dev) ->
  let up := fst (async_added_to_hass sensors (Some last) states w) in
  _hvac_mode (fields (session dev ops up)) ∈ _operation_modes dev
  \/ _hvac_mode (fields (session dev ops up)) = STATE_ON.
Proof.
  intros Hwf Hfan Htemp Hstate Hlast Hreq up.
  destruct (added_to_hass_after_restore (Some last) states w _
              (restore_run last f t w Hfan Htemp)) as (ct & ch & u & Hrun & _).
  assert (Hok : mode_ok dev (fields up)).
  { unfold up. rewrite Hrun. cbn. split; cbn; [exact Hstate | exact Hlast]. }
  exact (proj1 (session_mode_ok dev ops up Hwf Hok Hreq)).
Qed.

End StartupFacts.

Section Corners.
Context `{host : Host}.
Variable dev : Device.

Implicit Types (w : World) (o : option string).

(** X26.  When the default operation mode is off, which is what
    [__init__] falls back to, [async_turn_on] on an entity that is off
    and has no last-on operation leaves it off and transmits nothing. *)
Theorem turn_on_with_default_off w :
  _default_on_operation_mode dev = HVAC_MODE_OFF ->
  _hvac_mode (fields w) = HVAC_MODE_OFF ->
  _last_on_operation (fields w) = None ->
  _hvac_mode (fields_after (async_turn_on dev) w) = HVAC_MODE_OFF
  /\ emitted (async_turn_on dev) w = [UpdateHaState].
Proof.
  intros Hdef Hoff Hlast.
  unfold fields_after, emitted, trace_after.
  rewrite (turn_on_default_call dev w Hlast), Hdef.
  destruct w as [[mode ? ? ? ? ? ?] tr]. cbn in Hoff. subst mode.
  unfold async_set_hvac_mode, send_command, async_handle_exception_deco,
    handle_exception_deco, send_command_body.
  unmonad. cbn. split; [reflexivity | apply drop_app_length].
Qed.

(** X27.  A command table without an off code: a send for off from a
    mode other than off transmits nothing and logs the failure, and
    [async_turn_off] records off all the same. *)
Theorem turn_off_without_off_code w :
  _commands dev !! "off" = None ->
  _hvac_mode (fields w) <> HVAC_MODE_OFF ->
  emitted (async_turn_off dev) w
    = [LogException "Send command failed"; UpdateHaState]
  /\ _hvac_mode (fields_after (async_turn_off dev) w) = HVAC_MODE_OFF.
Proof.
  intros Hcode Hon. apply String.eqb_neq in Hon.
  destruct w as [s tr]. cbn in Hon.
  unfold fields_after, emitted, trace_after, async_turn_off, async_set_hvac_mode,
    send_command, async_handle_exception_deco, handle_exception_deco,
    send_command_body.
  unmonad. cbn.
  change (String.eqb (lower (or_current (Some HVAC_MODE_OFF) (_hvac_mode s)))
            HVAC_MODE_OFF) with true.
  cbn. rewrite Hon. cbn. rewrite Hcode. cbn.
  change (String.eqb (lower HVAC_MODE_OFF) HVAC_MODE_OFF) with true. cbn.
  split; [|reflexivity]. rewrite <- app_assoc. apply drop_app_length.
Qed.

End Corners.

(* ===================================================================== *)
(** ** The further properties on the demo installation *)
(* ===================================================================== *)

Lemma init_operation_modes_witness :
  init Demo.config Demo.data = inr (Demo.dev, fields Demo.start)
  /\ (exists rest, _operation_modes Demo.dev = HVAC_MODE_OFF :: rest)
  /\ ("cool" ∈ _operation_modes Demo.dev <->
      "cool" = HVAC_MODE_OFF
      \/ ("cool" ∈ operationModes Demo.data /\ "cool" ∈ HVAC_MODES)).
Proof.
  split; [exact init_demo|].
  pose proof (init_operation_modes Demo.config Demo.data Demo.dev
                (fields Demo.start) init_demo) as [Hhead Hall].
  split; [exact Hhead | exact (Hall "cool")].
Defined.


Lemma init_state_witness :
  init Demo.config Demo.data = inr (Demo.dev, fields Demo.start)
  /\ _hvac_mode (fields Demo.start) = HVAC_MODE_OFF
  /\ _current_fan_mode (fields Demo.start) ∈ _fan_modes Demo.dev.
Proof.
  split; [exact init_demo|].
  pose proof (init_state Demo.config Demo.data Demo.dev (fields Demo.start) init_demo)
    as (Hoff & _ & _ & Hfan & _).
  split; [exact Hoff | exact Hfan].
Defined.

Lemma init_default_operation_mode_witness :
  let turbo := {| conf_delay := 0.5; conf_power_sensor_restore_state := false;
                  conf_default_operation_mode := Some "turbo";
                  conf_default_swing_mode := None; conf_default_fan_mode := None |} in
  let silent := {| conf_delay := 0.5; conf_power_sensor_restore_state := false;
                   conf_default_operation_mode := None;
                   conf_default_swing_mode := None; conf_default_fan_mode := None |} in
  let dev_off := {| _delay := 0.5; _power_sensor_restore_state := false;
                    _min_temperature := 16; _max_temperature := 30; _precision := 1;
                    _operation_modes := ["off"; "cool"; "heat"];
                    _fan_modes := ["low"; "high"];
                    _commands := commands Demo.data; _swing_modes := None;
                    _default_on_operation_mode := "off" |} in
  (init Demo.config Demo.data = inr (Demo.dev, fields Demo.start)
   /\ conf_default_operation_mode Demo.config = Some "heat"
   /\ "heat" <> ""
   /\ "heat" ∈ _operation_modes Demo.dev
   /\ _default_on_operation_mode Demo.dev = "heat")
  /\ (init turbo Demo.data = inr (dev_off, fields Demo.start)
      /\ conf_default_operation_mode turbo = Some "turbo"
      /\ "turbo" <> ""
      /\ ~ "turbo" ∈ _operation_modes dev_off
      /\ _default_on_operation_mode dev_off = HVAC_MODE_OFF)
  /\ (init silent Demo.data = inr (dev_off, fields Demo.start)
      /\ conf_default_operation_mode silent = None
      /\ defaults Demo.data = None
      /\ _default_on_operation_mode dev_off = HVAC_MODE_OFF).
Proof.
  intros turbo silent dev_off.
  assert (Hne : "heat" <> "") by discriminate.
  assert (Hin : "heat" ∈ _operation_modes Demo.dev)
    by (apply in_list_elem; reflexivity).
  assert (Hturbo : init turbo Demo.data = inr (dev_off, fields Demo.start))
    by (vm_compute; reflexivity).
  assert (Hsilent : init silent Demo.data = inr (dev_off, fields Demo.start))
    by (vm_compute; reflexivity).
  assert (Hne' : "turbo" <> "") by discriminate.
  assert (Hout : ~ "turbo" ∈ _operation_modes dev_off).
  { intros H. apply in_list_elem in H. vm_compute in H. discriminate. }
  split; [|split].
  - split; [exact init_demo|]. split; [reflexivity|].
    split; [exact Hne|]. split; [exact Hin|].
    exact (proj1 (init_default_operation_mode Demo.config Demo.data Demo.dev
                    (fields Demo.start) init_demo) "heat" eq_refl Hne Hin).
  - split; [exact Hturbo|]. split; [reflexivity|].
    split; [exact Hne'|]. split; [exact Hout|].
    exact (proj1 (proj2 (init_default_operation_mode turbo Demo.data dev_off
                           (fields Demo.start) Hturbo)) "turbo" eq_refl Hne' Hout).
  - split; [exact Hsilent|]. split; [reflexivity|]. split; [reflexivity|].
    exact (proj2 (proj2 (init_default_operation_mode silent Demo.data dev_off
                           (fields Demo.start) Hsilent)) eq_refl eq_refl).
Defined.

Lemma turn_on_restores_last_witness :
  _last_on_operation (fields Demo.cooling) = Some "cool"
  /\ "cool" <> ""
  /\ _hvac_mode (fields_after (async_turn_on Demo.dev) Demo.cooling) = "cool".
Proof.
  assert (Hne : "cool" <> "") by discriminate.
  split; [reflexivity|]. split; [exact Hne|].
  exact (proj2 (turn_on_restores_last Demo.dev Demo.cooling "cool" eq_refl Hne)).
Defined.

Lemma external_off_then_on_restores_witness :
  "cool" <> "" /\ lower "cool" <> HVAC_MODE_OFF /\ "on" <> STATE_OFF
  /\ _hvac_mode
       (fields (session Demo.dev
                  [SetHvacMode "cool"; PowerEvent (Some "on") (Some STATE_OFF); TurnOn]
                  Demo.start))
     = "cool".
Proof.
  assert (H1 : "cool" <> "") by discriminate.
  assert (H2 : lower "cool" <> HVAC_MODE_OFF) by (vm_compute; discriminate).
  assert (H3 : "on" <> STATE_OFF) by discriminate.
  repeat (split; [assumption|]).
  exact (proj2 (external_off_then_on_restores Demo.dev Demo.start "cool" "on" H1 H2 H3)).
Defined.

Lemma power_on_policy_witness :
  "off" <> STATE_ON
  /\ _hvac_mode (fields Demo.start) = HVAC_MODE_OFF
  /\ _hvac_mode
       (fields_after (_async_power_sensor_changed Demo.dev (Some "off") (Some STATE_ON))
          Demo.start) = STATE_ON
  /\ _hvac_mode (fields Demo.cooling) <> HVAC_MODE_OFF
  /\ fields_after (_async_power_sensor_changed Demo.dev (Some "off") (Some STATE_ON))
       Demo.cooling = fields Demo.cooling.
Proof.
  assert (H1 : "off" <> STATE_ON) by discriminate.
  assert (H2 : _hvac_mode (fields Demo.cooling) <> HVAC_MODE_OFF) by discriminate.
  split; [exact H1|]. split; [reflexivity|]. split.
  - exact (proj1 (power_on_policy Demo.dev Demo.start "off" H1) eq_refl).
  - split; [exact H2|].
    exact (proj2 (power_on_policy Demo.dev Demo.cooling "off" H1) H2).
Defined.

Lemma power_event_touches_mode_only_witness :
  "unavailable" <> STATE_ON /\ "unavailable" <> STATE_OFF
  /\ fields_after
       (_async_power_sensor_changed Demo.dev (Some "on") (Some "unavailable"))
       Demo.cooling
     = fields Demo.cooling.
Proof.
  assert (H1 : "unavailable" <> STATE_ON) by discriminate.
  assert (H2 : "unavailable" <> STATE_OFF) by discriminate.
  split; [exact H1|]. split; [exact H2|].
  exact (proj2 (power_event_touches_mode_only Demo.dev Demo.cooling (Some "on")
                  (Some "unavailable")) "unavailable" eq_refl H1 H2).
Defined.

Lemma temp_reading_witness :
  ("21" <> STATE_UNKNOWN /\ py_float "21" = Some (Finite 21)
   /\ fields_after (_async_temp_sensor_changed None (Some "21")) Demo.cooling
      = set_current_temperature (Some (Finite 21)) (fields Demo.cooling))
  /\ ("warm" <> STATE_UNKNOWN /\ py_float "warm" = None
      /\ fields_after (_async_temp_sensor_changed None (Some "warm")) Demo.cooling
         = fields Demo.cooling)
  /\ fields_after (_async_temp_sensor_changed None (Some STATE_UNKNOWN)) Demo.cooling
     = fields Demo.cooling.
Proof.
  assert (H1 : "21" <> STATE_UNKNOWN) by discriminate.
  assert (H2 : "warm" <> STATE_UNKNOWN) by discriminate.
  split; [|split].
  - split; [exact H1|]. split; [reflexivity|].
    exact (proj1 (proj1 (proj2 (proj2 (temp_reading Demo.cooling None "21")))
                    (Finite 21) H1 eq_refl)).
  - split; [exact H2|]. split; [reflexivity|].
    exact (proj1 (proj1 (proj2 (temp_reading Demo.cooling None "warm")) H2 eq_refl)).
  - exact (proj1 (proj1 (temp_reading Demo.cooling None STATE_UNKNOWN) eq_refl)).
Defined.

Lemma humidity_reading_witness :
  ("21" <> STATE_UNKNOWN /\ py_float "21" = Some (Finite 21)
   /\ fields_after (_async_humidity_sensor_changed None (Some "21")) Demo.cooling
      = set_current_humidity (Some (Finite 21)) (fields Demo.cooling))
  /\ ("damp" <> STATE_UNKNOWN /\ py_float "damp" = None
      /\ fields_after (_async_humidity_sensor_changed None (Some "damp")) Demo.cooling
         = fields Demo.cooling)
  /\ fields_after (_async_humidity_sensor_changed None (Some STATE_UNKNOWN)) Demo.cooling
     = fields Demo.cooling.
Proof.
  assert (H1 : "21" <> STATE_UNKNOWN) by discriminate.
  assert (H2 : "damp" <> STATE_UNKNOWN) by discriminate.
  split; [|split].
  - split; [exact H1|]. split; [reflexivity|].
    exact (proj1 (proj1 (proj2 (proj2 (humidity_reading Demo.cooling None "21")))
                    (Finite 21) H1 eq_refl)).
  - split; [exact H2|]. split; [reflexivity|].
    exact (proj1 (proj1 (proj2 (humidity_reading Demo.cooling None "damp")) H2 eq_refl)).
  - exact (proj1 (proj1 (humidity_reading Demo.cooling None STATE_UNKNOWN) eq_refl)).
Defined.

Lemma set_temperature_then_send_witness :
  (_min_temperature Demo.dev <= 20 <= _max_temperature Demo.dev)%Q
  /\ fields_after (async_set_temperature Demo.dev None (Some 20%Q)) Demo.cooling
     = set_target_temperature 20 (fields Demo.cooling)
  /\ emitted (async_set_temperature Demo.dev None (Some 20%Q)) Demo.cooling
     = [Send (VStr "A"); Sleep 0.5; Send (VStr "C1"); UpdateHaState].
Proof.
  assert (Hin : (_min_temperature Demo.dev <= 20 <= _max_temperature Demo.dev)%Q)
    by (split; vm_compute; discriminate).
  split; [exact Hin|].
  pose proof (set_temperature_then_send Demo.dev 20%Q Demo.cooling Hin) as [Hf He].
  split; [exact Hf|]. rewrite He. vm_compute. reflexivity.
Defined.

Lemma set_temperature_with_mode_witness :
  "cool" <> ""
  /\ (_min_temperature Demo.dev <= 22 <= _max_temperature Demo.dev)%Q
  /\ async_set_temperature Demo.dev (Some "cool") (Some 22%Q) Demo.start
     = async_set_hvac_mode Demo.dev "cool"
         {| fields := set_target_temperature 22 (fields Demo.start); trace := [] |}.
Proof.
  assert (Hne : "cool" <> "") by discriminate.
  assert (Hin : (_min_temperature Demo.dev <= 22 <= _max_temperature Demo.dev)%Q)
    by (split; vm_compute; discriminate).
  split; [exact Hne|]. split; [exact Hin|].
  exact (proj1 (set_temperature_with_mode Demo.dev "cool" 22%Q Demo.start) Hne Hin).
Defined.

Lemma resolve_fan_default_witness :
  let table : gmap string value := {[ "default" := VDict {[ "22" := VStr "H2" ]} ]} in
  let heating := set_hvac_mode "heat" (fields Demo.cooling) in
  _commands Demo.dev !! "heat" = Some (VDict table)
  /\ truthy (default VNone (table !! _current_fan_mode heating)) = false
  /\ resolve Demo.dev "heat" heating = inr (VStr "H2").
Proof.
  intros table heating.
  assert (Hmode : _commands Demo.dev !! "heat" = Some (VDict table))
    by (vm_compute; reflexivity).
  assert (Hfan : truthy (default VNone (table !! _current_fan_mode heating)) = false)
    by (vm_compute; reflexivity).
  split; [exact Hmode|]. split; [exact Hfan|].
  rewrite (resolve_fan_default Demo.dev "heat" heating table Hmode Hfan).
  vm_compute. reflexivity.
Defined.

Lemma resolve_swing_entry_witness :
  let by_swing : gmap string value :=
    {[ "stop" := VStr "HS"; "vertical" := VDict {[ "22" := VStr "HV22" ]} ]} in
  let by_fan : gmap string value := {[ "high" := VDict by_swing ]} in
  let s := fields Demo.heating_high in
  is_swing_supported (_swing_modes Demo.swing_dev) = true
  /\ _commands Demo.swing_dev !! "heat" = Some (VDict by_fan)
  /\ by_fan !! _current_fan_mode s = Some (VDict by_swing)
  /\ _current_swing_mode s = Some "stop"
  /\ by_swing !! "stop" = Some (VStr "HS")
  /\ resolve Demo.swing_dev "heat" (set_target_temperature 17 s) = inr (VStr "HS")
  /\ resolve Demo.swing_dev "heat" (set_target_temperature 29 s) = inr (VStr "HS").
Proof.
  intros by_swing by_fan s.
  assert (H1 : is_swing_supported (_swing_modes Demo.swing_dev) = true) by reflexivity.
  assert (H2 : _commands Demo.swing_dev !! "heat" = Some (VDict by_fan))
    by (vm_compute; reflexivity).
  assert (H3 : by_fan !! _current_fan_mode s = Some (VDict by_swing))
    by (vm_compute; reflexivity).
  assert (H4 : _current_swing_mode s = Some "stop") by reflexivity.
  assert (H5 : by_swing !! "stop" = Some (VStr "HS")) by (vm_compute; reflexivity).
  pose proof (proj1 (resolve_swing_entry Demo.swing_dev "heat" s by_fan by_swing "stop"
                       H1 H2 H3 H4) "HS" H5) as Hflat.
  repeat (split; [assumption|]).
  split; [exact (Hflat 17%Q) | exact (Hflat 29%Q)].
Defined.

Lemma send_lookup_failure_still_wakes_witness :
  lower (or_current (Some "cool") (_hvac_mode (fields Demo.start))) <> HVAC_MODE_OFF
  /\ resolve Demo.dev (or_current (Some "cool") (_hvac_mode (fields Demo.start)))
       (fields Demo.start) = inl KeyError
  /\ _commands Demo.dev !! "on" = Some (VStr "A")
  /\ emitted (send_command Demo.dev (Some "cool")) Demo.start
     = [Send (VStr "A"); Sleep 0.5; LogException "Send command failed"].
Proof.
  assert (H1 : lower (or_current (Some "cool") (_hvac_mode (fields Demo.start)))
               <> HVAC_MODE_OFF) by (vm_compute; discriminate).
  assert (H2 : resolve Demo.dev (or_current (Some "cool") (_hvac_mode (fields Demo.start)))
                 (fields Demo.start) = inl KeyError) by (vm_compute; reflexivity).
  assert (H3 : _commands Demo.dev !! "on" = Some (VStr "A"))
    by (vm_compute; reflexivity).
  repeat (split; [assumption|]).
  exact (proj1 (send_lookup_failure_still_wakes Demo.dev (Some "cool") Demo.start
                  KeyError H1 H2) (VStr "A") H3 eq_refl).
Defined.

Lemma on_marker_sends_only_wake_code_witness :
  let seen_on := session Demo.dev [PowerEvent (Some "off") (Some "on")] Demo.start in
  _hvac_mode (fields seen_on) = STATE_ON
  /\ _commands Demo.dev !! "on" = Some (VStr "A")
  /\ (_min_temperature Demo.dev <= 22 <= _max_temperature Demo.dev)%Q
  /\ emitted (async_set_temperature Demo.dev None (Some 22%Q)) seen_on
     = [Send (VStr "A"); Sleep 0.5; LogException "Send command failed";
        UpdateHaState].
Proof.
  intros seen_on.
  assert (H1 : _hvac_mode (fields seen_on) = STATE_ON) by (vm_compute; reflexivity).
  assert (H2 : _commands Demo.dev !! "on" = Some (VStr "A"))
    by (vm_compute; reflexivity).
  assert (H3 : (_min_temperature Demo.dev <= 22 <= _max_temperature Demo.dev)%Q)
    by (split; vm_compute; discriminate).
  repeat (split; [assumption|]).
  exact (proj2 (on_marker_sends_only_wake_code Demo.dev seen_on "A" 22%Q
                  H1 H2 eq_refl H3)).
Defined.


Lemma added_to_hass_missing_attribute_witness :
  Setup.attr_fan_mode Demo.saved_without_fan = None
  /\ Setup.async_added_to_hass Demo.sensors (Some Demo.saved_without_fan)
       Demo.states Demo.start
     = ({| fields := set_hvac_mode "cool" (fields Demo.start); trace := [] |},
        inl KeyError).
Proof.
  split; [reflexivity|].
  exact (proj1 (added_to_hass_missing_attribute Demo.sensors Demo.saved_without_fan
                  Demo.states Demo.start) eq_refl).
Defined.

Lemma added_to_hass_restores_witness :
  Setup.attr_fan_mode Demo.saved = Some "low"
  /\ Setup.attr_temperature Demo.saved = Some 22%Q
  /\ _hvac_mode
       (fields_after
          (Setup.async_added_to_hass Demo.sensors (Some Demo.saved) Demo.states)
          Demo.start) = "cool"
  /\ _target_temperature
       (fields_after
          (Setup.async_added_to_hass Demo.sensors (Some Demo.saved) Demo.states)
          Demo.start) = 22%Q.
Proof.
  split; [reflexivity|]. split; [reflexivity|].
  pose proof (added_to_hass_restores Demo.sensors Demo.saved "low" 22%Q Demo.states
                Demo.start eq_refl eq_refl) as (Hmode & _ & Htemp & _).
  split; [exact Hmode | exact Htemp].
Defined.

Lemma restored_session_modes_witness :
  let ops := [PowerEvent (Some "on") (Some "off"); PowerEvent (Some "off") (Some "on");
              SetHvacMode "heat"] in
  let up := fst (Setup.async_added_to_hass Demo.sensors (Some Demo.saved)
                   Demo.states Demo.start) in
  well_formed Demo.dev
  /\ (Setup.ls_state Demo.saved ∈ _operation_modes Demo.dev
      \/ Setup.ls_state Demo.saved = STATE_ON)
  /\ (_hvac_mode (fields (session Demo.dev ops up)) ∈ _operation_modes Demo.dev
      \/ _hvac_mode (fields (session Demo.dev ops up)) = STATE_ON).
Proof.
  intros ops up.
  assert (Hwf : well_formed Demo.dev).
  { split; apply in_list_elem; reflexivity. }
  assert (Hstate : Setup.ls_state Demo.saved ∈ _operation_modes Demo.dev
                   \/ Setup.ls_state Demo.saved = STATE_ON).
  { left. apply in_list_elem. reflexivity. }
  assert (Hlast : forall m, Setup.attr_last_on_operation Demo.saved = Some m ->
                    m ∈ _operation_modes Demo.dev).
  { intros m [= <-]. apply in_list_elem. reflexivity. }
  assert (Hreq : forall (c : op) m, c ∈ ops -> requested_mode c = Some m ->
                   m ∈ _operation_modes Demo.dev).
  { intros c m Hin Hm. apply in_list_elem.
    repeat (apply elem_of_cons in Hin as [-> | Hin]);
      try (apply elem_of_nil in Hin; destruct Hin);
      cbn in Hm; try discriminate; injection Hm as <-; reflexivity. }
  split; [exact Hwf|]. split; [exact Hstate|].
  exact (restored_session_modes Demo.dev Demo.sensors Demo.saved "low" 22%Q
           Demo.states Demo.start ops Hwf eq_refl eq_refl Hstate Hlast Hreq).
Defined.

Lemma turn_on_with_default_off_witness :
  let dev_off := {| _delay := 0.5; _power_sensor_restore_state := false;
                    _min_temperature := 16; _max_temperature := 30; _precision := 1;
                    _operation_modes := ["off"; "cool"; "heat"];
                    _fan_modes := ["low"; "high"];
                    _commands := commands Demo.data; _swing_modes := None;
                    _default_on_operation_mode := "off" |} in
  _default_on_operation_mode dev_off = HVAC_MODE_OFF
  /\ _hvac_mode (fields Demo.start) = HVAC_MODE_OFF
  /\ _last_on_operation (fields Demo.start) = None
  /\ emitted (async_turn_on dev_off) Demo.start = [UpdateHaState].
Proof.
  intros dev_off. repeat (split; [reflexivity|]).
  exact (proj2 (turn_on_with_default_off dev_off Demo.start eq_refl eq_refl eq_refl)).
Defined.

Lemma turn_off_without_off_code_witness :
  let bare := {| _delay := 0.5; _power_sensor_restore_state := false;
                 _min_temperature := 16; _max_temperature := 30; _precision := 1;
                 _operation_modes := ["off"; "cool"]; _fan_modes := ["low"];
                 _commands := {[ "cool" := Demo.cool_table ]}; _swing_modes := None;
                 _default_on_operation_mode := "cool" |} in
  _commands bare !! "off" = None
  /\ _hvac_mode (fields Demo.cooling) <> HVAC_MODE_OFF
  /\ emitted (async_turn_off bare) Demo.cooling
     = [LogException "Send command failed"; UpdateHaState]
  /\ _hvac_mode (fields_after (async_turn_off bare) Demo.cooling) = HVAC_MODE_OFF.
Proof.
  intros bare.
  assert (H1 : _commands bare !! "off" = None) by (vm_compute; reflexivity).
  assert (H2 : _hvac_mode (fields Demo.cooling) <> HVAC_MODE_OFF) by discriminate.
  split; [exact H1|]. split; [exact H2|].
  exact (turn_off_without_off_code bare Demo.cooling H1 H2).
Defined.
